(** * yarn: the [add] command (src/cli/commands/add.js)

    A shallow embedding of the [Add] class and of [run], together with the
    properties of the version-spec resolver, the pattern rewriter, the
    manifest merger and the bailout gate.

    The modules that add.js imports (normalize-pattern, resolvers, semver,
    the [Install] superclass, the package resolver, the integrity checker,
    the lockfile reader) are other files: they enter the development as the
    operations of type classes, so every theorem stated over these classes
    holds for any implementation of them.  Module [Sample] gives one
    implementation and module [Demo] a few invocations, used to run the
    definitions on concrete inputs. *)

From Stdlib Require Import Ascii DecimalString.
From stdpp Require Import base option list strings gmap.

(** ** JavaScript values *)

(** The values [config.getOption] gives for the two options add.js reads:
    undefined or null when the option is not set, a boolean or a string
    otherwise.  [String(v)] and [Boolean(v)] are the two conversions add.js
    applies to them. *)
Inductive JsValue :=
  | JsUndefined
  | JsNull
  | JsBool (b : bool)
  | JsString (s : string).

Definition js_String (v : JsValue) : string :=
  match v with
  | JsUndefined => "undefined"
  | JsNull => "null"
  | JsBool true => "true"
  | JsBool false => "false"
  | JsString s => s
  end.

(** Truthiness of a string: every string but the empty one. *)
Definition truthy (s : string) : bool := negb (String.eqb s "").

Definition js_Boolean (v : JsValue) : bool :=
  match v with
  | JsUndefined | JsNull => false
  | JsBool b => b
  | JsString s => truthy s
  end.

(** [a || b] on strings. *)
Definition str_or (a b : string) : string := if truthy a then a else b.

(** ** Data *)

(** The command-line flags, each by its truthiness. *)
Record Flags := mkFlags {
  dev : bool;
  optional : bool;
  peer : bool;
  exact : bool;
  tilde : bool;
  ignoreWorkspaceRootCheck : bool;
}.

(** A root manifest object, by its dependency sections: property name to
    (package name to version spec).  [Manifests] is keyed by registry. *)
Abbreviation ManifestObject := (gmap string (gmap string string)).
Abbreviation Manifests := (gmap string ManifestObject).

(** [workspaceRootFolder] is [None] when the property is undefined.
    [rootManifests] is the store behind [config.getRootManifests] and
    [config.saveRootManifests]. *)
Record Config := mkConfig {
  cwd : string;
  workspaceRootFolder : option string;
  lockfileFolder : string;
  getOption : string → JsValue;
  rootManifests : Manifests;
}.

Record PackageReference := mkReference {
  registry : string;
}.

(** The resolved package ([Manifest] in types.js), by the fields add.js reads. *)
Record Manifest := mkManifest {
  name : string;
  version : string;
  _reference : option PackageReference;
}.

(** The result of [normalizePattern]. *)
Record NormalizedPattern := mkNormalized {
  np_name : string;
  range : string;
  hasVersion : bool;
}.

(** The functions add.js imports from util/normalize-pattern.js,
    resolvers/index.js and the semver package.  [getExoticResolver] returns a
    resolver class or null; only its truthiness is used. *)
Class Imports := {
  normalizePattern : string → NormalizedPattern;
  getExoticResolver : string → bool;
  semver_satisfies : string → string → bool;
}.

(** ** Version spec resolver *)

Section GetPatternVersion.
Context `{Imports}.

(** [Add.getPatternVersion], lines 61-87; [flags] and [config] are
    [this.flags] and [this.config]. *)
Definition getPatternVersion (flags : Flags) (config : Config)
    (pattern : string) (pkg : Manifest) : string :=
  let tilde := tilde flags in
  let configPrefix := js_String (getOption config "save-prefix") in
  let exact :=
    exact flags || js_Boolean (getOption config "save-exact")
    || String.eqb configPrefix "" in
  let np := normalizePattern pattern in
  if getExoticResolver pattern then
    pattern
  else if hasVersion np && truthy (range np)
          && (semver_satisfies (version pkg) (range np)
              || getExoticResolver (range np)) then
    range np
  else
    let prefix :=
      if tilde then "~"
      else if exact then ""
      else str_or configPrefix "^" in
    prefix +:+ version pkg.

(** The canonical pattern of lines 95: [`${pkg.name}@${version}`]. *)
Definition canonicalPattern (pkg : Manifest) (version : string) : string :=
  name pkg +:+ "@" +:+ version.
End GetPatternVersion.

(** ** Errors, reporter output and manifests *)

(** A localized message, [reporter.lang(key, ...args)], kept symbolic. *)
Inductive LangArg :=
  | ArgString (s : string)
  | ArgNumber (n : nat)
  | ArgNull.

Record Message := Lang {
  lang_key : string;
  lang_args : list LangArg;
}.

Inductive Exception :=
  | MessageError (m : Message)
  | InvariantViolation (msg : string)
  | TypeError (msg : string).

Inductive Result (A : Type) :=
  | Ok (a : A)
  | Throw (e : Exception).
Arguments Ok {A} a.
Arguments Throw {A} e.

(** [this.rootPatternsToOrigin]: an object used as a map, in the insertion
    order of its keys (the order of [Object.keys]). *)
Abbreviation PatternOrigins := (list (string * string)).

(** The property [o[key]] of an object held as a list of entries; [None] is
    [undefined]. *)
Fixpoint property (o : PatternOrigins) (key : string) : option string :=
  match o with
  | [] => None
  | (k, v) :: o' => if String.eqb k key then Some v else property o' key
  end.

Record DependencyRequestPattern := mkRequest {
  pattern : string;
  req_registry : string;
  req_optional : bool;
}.

Record Lockfile (Cache : Type) := mkLockfile {
  cache : option Cache;
}.
Arguments mkLockfile {Cache} cache.
Arguments cache {Cache} l.

Record IntegrityMatch := mkMatch {
  integrityFileMissing : bool;
}.

(** The services add.js reaches through [this] and through its imports:
    the package resolver, the integrity checker, the file system, the tree
    builder of list.js and the constant LOCKFILE_FILENAME. *)
Class Services := {
  Resolver : Type;
  LockfileCache : Type;
  WorkspaceLayout : Type;
  Trees : Type;
  InstallCwdRequest : Type;
  dedupePatterns : Resolver → list string → list string;
  getResolvedPattern : Resolver → string → option Manifest;
  replacePattern : Resolver → string → string → Resolver;
  newResolver : Config → Lockfile LockfileCache → Resolver;
  newScriptsForce : Config → Flags → bool;
  integrityChecker_check :
    list string → LockfileCache → Flags → option WorkspaceLayout → IntegrityMatch;
  fs_exists : string → bool;
  path_join : string → string → string;
  LOCKFILE_FILENAME : string;
  buildTree : Resolver → list string → Trees * nat;
}.

Section AddCommand.
Context `{Imports} `{Services}.

Inductive Output :=
  | OutWarn (m : Message)
  | OutSuccess (m : Message)
  | OutTree (key : string) (trees : Trees).

(** What the reporter has printed, oldest first. *)
Abbreviation Reporter := (list Output).

(** An [Add] instance: the fields of [Install] that add.js uses, then its
    own three.  [scriptsForce] is the flag [this.scripts.setForce] sets. *)
Record Add := mkAdd {
  flags : Flags;
  config : Config;
  reporter : Reporter;
  lockfile : Lockfile LockfileCache;
  resolver : Resolver;
  rootPatternsToOrigin : PatternOrigins;
  scriptsForce : bool;
  args : list string;
  flagToOrigin : string;
  addedPatterns : list string;
}.

Definition set_config (c : Config) (this : Add) : Add :=
  mkAdd (flags this) c (reporter this) (lockfile this) (resolver this)
    (rootPatternsToOrigin this) (scriptsForce this)
    (args this) (flagToOrigin this) (addedPatterns this).
Definition set_reporter (r : Reporter) (this : Add) : Add :=
  mkAdd (flags this) (config this) r (lockfile this) (resolver this)
    (rootPatternsToOrigin this) (scriptsForce this)
    (args this) (flagToOrigin this) (addedPatterns this).
Definition set_resolver (r : Resolver) (this : Add) : Add :=
  mkAdd (flags this) (config this) (reporter this) (lockfile this) r
    (rootPatternsToOrigin this) (scriptsForce this)
    (args this) (flagToOrigin this) (addedPatterns this).
Definition set_rootPatternsToOrigin (o : PatternOrigins) (this : Add) : Add :=
  mkAdd (flags this) (config this) (reporter this) (lockfile this)
    (resolver this) o (scriptsForce this)
    (args this) (flagToOrigin this) (addedPatterns this).
Definition setForce (b : bool) (this : Add) : Add :=
  mkAdd (flags this) (config this) (reporter this) (lockfile this)
    (resolver this) (rootPatternsToOrigin this) b
    (args this) (flagToOrigin this) (addedPatterns this).
Definition set_addedPatterns (l : list string) (this : Add) : Add :=
  mkAdd (flags this) (config this) (reporter this) (lockfile this)
    (resolver this) (rootPatternsToOrigin this) (scriptsForce this)
    (args this) (flagToOrigin this) l.

(** Modelled from the spec: the root manifest store of config.js, where
    [getRootManifests()] gives the manifest objects by registry and
    [saveRootManifests(manifests)] persists the ones it is given.  Both are
    taken to succeed: an I/O error of the store is not part of this model,
    which describes the runs in which the store answers. *)
Definition getRootManifests (c : Config) : Manifests := rootManifests c.
Definition saveRootManifests (c : Config) (m : Manifests) : Config :=
  mkConfig (cwd c) (workspaceRootFolder c) (lockfileFolder c) (getOption c) m.

(** The methods of the superclass and the two functions of lockfile and
    install.js that add.js calls.
    [Install.prototype.fetchRequestFromCwd] returns its request and fills
    [rootPatternsToOrigin]: its second component is the new value.
    [wrapLifecycle] runs its callback between the lifecycle scripts. *)
Class Install := {
  Install_init : Add → Result (list string) * Add;
  Install_fetchRequestFromCwd :
    Add → list string → InstallCwdRequest * PatternOrigins;
  Lockfile_fromDirectory :
    string → Reporter → Result (Lockfile LockfileCache) * Reporter;
  wrapLifecycle :
    Config → Flags →
    (Config * Reporter → Result unit * (Config * Reporter)) →
    Config * Reporter → Result unit * (Config * Reporter);
}.
Context `{Install}.

(** *** The constructor, lines 23-35 *)

(** [flag && 'origin']: the falsy flag ([None]) or the string. *)
Definition flag_and (flag : bool) (origin : string) : option string :=
  if flag then Some origin else None.

(** [.filter(Boolean).shift()]: the first truthy element; [shift] gives
    undefined on an empty array, written [""] here (the array always ends
    with 'dependencies', so this case never arises). *)
Definition flagToOrigin_of (flags : Flags) : string :=
  default ""
    (head (omap id
      [ flag_and (dev flags) "devDependencies";
        flag_and (optional flags) "optionalDependencies";
        flag_and (peer flags) "peerDependencies";
        Some "dependencies" ])).

(** The constructor stores its arguments; the resolver and the scripts
    installer are created by the superclass.  [addedPatterns] is declared
    without a value and assigned by [init] before any use: it starts empty
    here. *)
Definition new_Add (args : list string) (flags : Flags) (config : Config)
    (reporter : Reporter) (lockfile : Lockfile LockfileCache) : Add :=
  {| flags := flags;
     config := config;
     reporter := reporter;
     lockfile := lockfile;
     resolver := newResolver config lockfile;
     rootPatternsToOrigin := [];
     scriptsForce := newScriptsForce config flags;
     args := args;
     flagToOrigin := flagToOrigin_of flags;
     addedPatterns := [] |}.

(** *** [prepareRequests], lines 45-56 *)
Definition prepareRequests (this : Add)
    (requests : list DependencyRequestPattern) : list DependencyRequestPattern :=
  foldl (λ requestsWithArgs pattern,
           requestsWithArgs ++ [mkRequest pattern "npm" false])
        requests (args this).

(** [this.getPatternVersion(pattern, pkg)]. *)
Definition this_getPatternVersion (this : Add) (pattern : string)
    (pkg : Manifest) : string :=
  getPatternVersion (flags this) (config this) pattern pkg.

(** *** [preparePatterns], lines 89-104 *)

(** The loop over [this.resolver.dedupePatterns(this.args)]; the state is
    [this] (its resolver and [addedPatterns]) and [preparedPatterns]. *)
Fixpoint preparePatterns_loop (deduped : list string) (this : Add)
    (preparedPatterns : list string) : Result (list string) * Add :=
  match deduped with
  | [] => (Ok preparedPatterns, this)
  | pattern :: rest =>
    match getResolvedPattern (resolver this) pattern with
    | None => (Throw (InvariantViolation ("missing package " +:+ pattern)), this)
    | Some pkg =>
      let version := this_getPatternVersion this pattern pkg in
      let newPattern := canonicalPattern pkg version in
      let preparedPatterns := preparedPatterns ++ [newPattern] in
      let this := set_addedPatterns (addedPatterns this ++ [newPattern]) this in
      if String.eqb newPattern pattern then
        preparePatterns_loop rest this preparedPatterns
      else
        preparePatterns_loop rest
          (set_resolver (replacePattern (resolver this) pattern newPattern) this)
          preparedPatterns
    end
  end.

Definition preparePatterns (this : Add) (patterns : list string)
    : Result (list string) * Add :=
  preparePatterns_loop (dedupePatterns (resolver this) (args this)) this patterns.

(** *** [bailout], lines 106-118 *)
Definition bailout (this : Add) (patterns : list string)
    (workspaceLayout : option WorkspaceLayout) : bool * Add :=
  match cache (lockfile this) with
  | None => (false, this)
  | Some lockfileCache =>
    let match_ :=
      integrityChecker_check patterns lockfileCache (flags this) workspaceLayout in
    let haveLockfile :=
      fs_exists (path_join (lockfileFolder (config this)) LOCKFILE_FILENAME) in
    let this :=
      if integrityFileMissing match_ && haveLockfile
      then setForce true this else this in
    (false, this)
  end.

(** *** [fetchRequestFromCwd], lines 143-145 *)
Definition fetchRequestFromCwd (this : Add) : InstallCwdRequest * Add :=
  let '(request, origins) := Install_fetchRequestFromCwd this (args this) in
  (request, set_rootPatternsToOrigin origins this).

(** *** [maybeOutputSaveTree], lines 151-161 *)
Definition maybeOutputSaveTree (this : Add) (patterns : list string) : Add :=
  let '(trees, count) := buildTree (resolver this) patterns in
  let message :=
    if Nat.eqb count 1 then Lang "savedNewDependency" []
    else Lang "savedNewDependencies" [ArgNumber count] in
  set_reporter
    (reporter this ++ [OutSuccess message; OutTree "newDependencies" trees]) this.

(** *** [savePackages], lines 167-205 *)

(** Lines 183-188: the reduce over [Object.keys(this.rootPatternsToOrigin)];
    [None] is the initial null. *)
Definition depTypeOf (origins : PatternOrigins) (patternOrigins : list string)
    (pkgName : string) : option string :=
  foldl (λ acc prev,
           if String.prefix (pkgName +:+ "@") prev
           then property origins prev else acc)
        None patternOrigins.

(** Line 191: [depType || this.flagToOrigin]. *)
Definition targetOf (depType : option string) (flagToOrigin : string) : string :=
  match depType with
  | Some origin => str_or origin flagToOrigin
  | None => flagToOrigin
  end.

Definition depTypeArg (depType : option string) : LangArg :=
  match depType with
  | Some origin => ArgString origin
  | None => ArgNull
  end.

(** Lines 196-197 on the object of one manifest.  The map holds the own
    entries of the sections; section and package names are taken to differ
    from [__proto__], whose assignment creates no own entry. *)
Definition assignVersion (object : ManifestObject) (target pkgName version : string)
    : ManifestObject :=
  <[target := <[pkgName := version]> (default ∅ (object !! target))]> object.

(** The loop of lines 176-202 over [this.addedPatterns]; the state is the
    in-memory [manifests] and the reporter. *)
Fixpoint savePackages_loop (this : Add) (patternOrigins : list string)
    (added : list string) (manifests : Manifests) (reporter : Reporter)
    : Result Manifests * Reporter :=
  match added with
  | [] => (Ok manifests, reporter)
  | pattern :: rest =>
    match getResolvedPattern (resolver this) pattern with
    | None => (Throw (InvariantViolation ("missing package " +:+ pattern)), reporter)
    | Some pkg =>
      let version := this_getPatternVersion this pattern pkg in
      match _reference pkg with
      | None => (Throw (InvariantViolation "expected package reference"), reporter)
      | Some ref =>
        let depType :=
          depTypeOf (rootPatternsToOrigin this) patternOrigins (name pkg) in
        let target := targetOf depType (flagToOrigin this) in
        match manifests !! registry ref with
        | None => (Throw (TypeError "manifests[ref.registry] is undefined"), reporter)
        | Some object =>
          let manifests :=
            <[registry ref := assignVersion object target (name pkg) version]>
              manifests in
          let reporter :=
            if String.eqb target (flagToOrigin this) then reporter
            else reporter ++
              [OutWarn (Lang "moduleAlreadyInManifest"
                 [ArgString (name pkg); depTypeArg depType;
                  ArgString (flagToOrigin this)])] in
          savePackages_loop this patternOrigins rest manifests reporter
        end
      end
    end
  end.

Definition savePackages (this : Add) : Result unit * Add :=
  let this :=
    set_rootPatternsToOrigin (Install_fetchRequestFromCwd this []).2 this in
  let patternOrigins := (rootPatternsToOrigin this).*1 in
  let manifests := getRootManifests (config this) in
  match savePackages_loop this patternOrigins (addedPatterns this) manifests
          (reporter this) with
  | (Throw e, reporter) => (Throw e, set_reporter reporter this)
  | (Ok manifests, reporter) =>
    (Ok (), set_config (saveRootManifests (config this) manifests)
              (set_reporter reporter this))
  end.

(** *** [init], lines 124-137 *)

(** Line 125, by its truthiness. *)
Definition isWorkspaceRoot (config : Config) : bool :=
  match workspaceRootFolder config with
  | Some root => truthy root && String.eqb (cwd config) root
  | None => false
  end.

Definition init (this : Add) : Result (list string) * Add :=
  if isWorkspaceRoot (config this) && negb (ignoreWorkspaceRootCheck (flags this))
  then (Throw (MessageError (Lang "workspacesAddRootCheck" [])), this)
  else
    let this := set_addedPatterns [] this in
    match Install_init this with
    | (Throw e, this) => (Throw e, this)
    | (Ok patterns, this) =>
      let this := maybeOutputSaveTree this patterns in
      match savePackages this with
      | (Throw e, this) => (Throw e, this)
      | (Ok _, this) => (Ok patterns, this)
      end
    end.

(** *** [hasWrapper] and [run], lines 208-233 *)
Definition hasWrapper {Commander : Type} (commander : Commander) : bool := true.

(** The state [run] threads is the pair of its mutable arguments, the
    configuration (with the manifest store) and the reporter. *)
Definition stateOf (install : Add) : Config * Reporter :=
  (config install, reporter install).

Definition run (config : Config) (reporter : Reporter) (flags : Flags)
    (args : list string) : Result unit * (Config * Reporter) :=
  if Nat.eqb (length args) 0 then
    (Throw (MessageError (Lang "missingAddDependencies" [])), (config, reporter))
  else
    match Lockfile_fromDirectory (lockfileFolder config) reporter with
    | (Throw e, reporter) => (Throw e, (config, reporter))
    | (Ok lockfile, reporter) =>
      wrapLifecycle config flags
        (λ '(config, reporter),
           let install := new_Add args flags config reporter lockfile in
           match init install with
           | (Throw e, install) => (Throw e, stateOf install)
           | (Ok _, install) => (Ok (), stateOf install)
           end)
        (config, reporter)
    end.
End AddCommand.

(** ** One implementation of the imported modules *)

(** The definitions of this module stand for files that are not part of
    add.js.  They are used only to evaluate the command on concrete inputs;
    no theorem about [Add] depends on them. *)
Module Sample.

(** The text before and after the first occurrence of [c], if any. *)
Fixpoint split_first (c : ascii) (s : string) : option (string * string) :=
  match s with
  | EmptyString => None
  | String a rest =>
    if Ascii.eqb a c then Some (EmptyString, rest)
    else match split_first c rest with
         | Some (before, after) => Some (String a before, after)
         | None => None
         end
  end.

Fixpoint split_on (c : ascii) (s : string) : list string :=
  match s with
  | EmptyString => [EmptyString]
  | String a rest =>
    if Ascii.eqb a c then EmptyString :: split_on c rest
    else match split_on c rest with
         | part :: parts => String a part :: parts
         | [] => [String a EmptyString]
         end
  end.

(** Modelled from the spec: [normalizePattern] of util/normalize-pattern.js,
    which parses a pattern, "a name optionally followed by @range", into
    (name, hasVersion, range).  A leading [@] belongs to a scoped name;
    the range starts after the first [@] that follows the name. *)
Definition parse_pattern (pattern : string) : NormalizedPattern :=
  let '(isScoped, body) :=
    match pattern with
    | String "@"%char rest => (true, rest)
    | _ => (false, pattern)
    end in
  let scope := if (isScoped : bool) then "@" else "" in
  match split_first "@"%char body with
  | None => mkNormalized pattern "latest" false
  | Some (name, range) =>
    if truthy range then mkNormalized (scope +:+ name) range true
    else mkNormalized (scope +:+ name) "*" false
  end.

(** Modelled from the spec: the exotic-specifier classifier
    [getExoticResolver] of resolvers/index.js, which "recognizes non-range
    specifiers (URLs, local paths, VCS refs, tags)"; here by protocol. *)
Definition is_exotic (pattern : string) : bool :=
  existsb (λ protocol, String.prefix protocol pattern)
    ["http://"; "https://"; "file:"; "link:"; "git+"; "github:"].

(** A fragment of semver: versions [major.minor.patch]; ranges [*], an
    exact version, [~version] and [^version].  Every other range is not
    satisfied. *)
Definition parseNumber (s : string) : option nat :=
  Nat.of_uint <$> DecimalString.NilZero.uint_of_string s.

Definition parseVersion (s : string) : option (nat * nat * nat) :=
  match split_on "."%char s with
  | [major; minor; patch] =>
    major ← parseNumber major;
    minor ← parseNumber minor;
    patch ← parseNumber patch;
    Some (major, minor, patch)
  | _ => None
  end.

Definition version_leb (v w : nat * nat * nat) : bool :=
  let '(a, b, c) := v in
  let '(a', b', c') := w in
  (a <? a') || ((a =? a') && ((b <? b') || ((b =? b') && (c <=? c')))).

Definition version_eqb (v w : nat * nat * nat) : bool :=
  version_leb v w && version_leb w v.

Definition satisfies_parsed (v : nat * nat * nat) (range : string) : bool :=
  let '(a, b, _) := v in
  match range with
  | "*" => true
  | String "~"%char lower =>
    match parseVersion lower with
    | Some ((a', b', _) as w) => (a =? a') && (b =? b') && version_leb w v
    | None => false
    end
  | String "^"%char lower =>
    match parseVersion lower with
    | Some ((a', b', c') as w) =>
      version_leb w v &&
      (if 0 <? a' then a =? a'
       else if 0 <? b' then (a =? 0) && (b =? b')
       else version_eqb v w)
    | None => false
    end
  | _ =>
    match parseVersion range with
    | Some w => version_eqb v w
    | None => false
    end
  end.

Definition satisfies (version range : string) : bool :=
  match parseVersion version with
  | Some v => satisfies_parsed v range
  | None => false
  end.

Definition imports : Imports :=
  {| normalizePattern := parse_pattern;
     getExoticResolver := is_exotic;
     semver_satisfies := satisfies |}.

(** Modelled from the spec: the resolver view of package-resolver.js, with
    [getResolvedPattern] a lookup in the pattern index, [replacePattern]
    "renames a pattern key in the resolver's internal index" and
    [dedupePatterns] "collapses patterns that resolved to the same package".
    The index is a list of entries. *)
Definition index_lookup (r : list (string * Manifest)) (pattern : string)
    : option Manifest :=
  snd <$> find (λ entry, String.eqb entry.1 pattern) r.

Definition index_rename (r : list (string * Manifest)) (old new : string)
    : list (string * Manifest) :=
  (λ entry, if String.eqb entry.1 old then (new, entry.2) else entry) <$> r.

Definition same_package (p q : Manifest) : bool :=
  String.eqb (name p) (name q) && String.eqb (version p) (version q).

Fixpoint dedupe_go (r : list (string * Manifest)) (seen : list Manifest)
    (patterns : list string) : list string :=
  match patterns with
  | [] => []
  | pattern :: rest =>
    match index_lookup r pattern with
    | Some pkg =>
      if existsb (same_package pkg) seen then dedupe_go r seen rest
      else pattern :: dedupe_go r (pkg :: seen) rest
    | None => pattern :: dedupe_go r seen rest
    end
  end.

Definition index_dedupe (r : list (string * Manifest)) (patterns : list string)
    : list string :=
  dedupe_go r [] patterns.

Definition services (resolved : list (string * Manifest)) : Services :=
  {| Resolver := list (string * Manifest);
     LockfileCache := unit;
     WorkspaceLayout := unit;
     Trees := list string;
     InstallCwdRequest := unit;
     dedupePatterns := index_dedupe;
     getResolvedPattern := index_lookup;
     replacePattern := index_rename;
     newResolver := λ _ _, resolved;
     newScriptsForce := λ _ _, false;
     integrityChecker_check := λ _ _ _ _, mkMatch true;
     fs_exists := λ file, String.eqb file "/project/yarn.lock";
     path_join := λ folder file, folder +:+ "/" +:+ file;
     LOCKFILE_FILENAME := "yarn.lock";
     buildTree := λ _ patterns, (patterns, length patterns) |}.

(** Modelled from the spec: the index of [Install.prototype.fetchRequestFromCwd]
    (install.js), "a mapping from an already-recorded manifest pattern
    [name@existingSpec] to the origin it was found under", built from the npm
    root manifest: one pattern per entry of the sections dependencies,
    devDependencies and optionalDependencies. *)
Definition section_patterns (object : ManifestObject) (origin : string)
    : PatternOrigins :=
  (λ entry : string * string, (entry.1 +:+ "@" +:+ entry.2, origin))
    <$> map_to_list (default ∅ (object !! origin)).

Definition root_patterns (c : Config) : PatternOrigins :=
  let object := default ∅ (rootManifests c !! "npm") in
  section_patterns object "dependencies"
  ++ section_patterns object "devDependencies"
  ++ section_patterns object "optionalDependencies".

(** Modelled from the spec: the superclass and the wrappers of install.js.
    Resolution has already filled the resolver, so [Install.prototype.init]
    only rewrites the patterns; the lockfile has a cache; the lifecycle
    wrapper runs its callback and nothing else. *)
Definition install (resolved : list (string * Manifest))
    : @Install (services resolved) :=
  {| Install_init := λ this, @preparePatterns imports (services resolved) this [];
     Install_fetchRequestFromCwd := λ this _, ((), root_patterns (config this));
     Lockfile_fromDirectory := λ _ reporter, (Ok (mkLockfile (Some ())), reporter);
     wrapLifecycle := λ _ _ factory state, factory state |}.
End Sample.

(** ** Reading the manifests and the merge loop as a list of assignments *)

(** [manifests[registry].object[origin][pkgName]]; [None] when any of the
    three lookups is undefined. *)
Definition cell (manifests : Manifests) (registry origin pkgName : string)
    : option string :=
  object ← manifests !! registry;
  section ← object !! origin;
  section !! pkgName.

(** One assignment of lines 194-197: registry, target, name, version. *)
Record Assignment := mkAssignment {
  a_registry : string;
  a_target : string;
  a_name : string;
  a_version : string;
}.

(** The place an assignment writes to. *)
Definition a_cell (a : Assignment) : string * string * string :=
  (a_registry a, a_target a, a_name a).

(** The assignment on manifests that hold its registry (others are left
    alone: there the loop throws instead). *)
Definition assign (a : Assignment) (manifests : Manifests) : Manifests :=
  match manifests !! a_registry a with
  | Some object =>
    <[a_registry a :=
        assignVersion object (a_target a) (a_name a) (a_version a)]> manifests
  | None => manifests
  end.

Definition assign_all (l : list Assignment) (manifests : Manifests) : Manifests :=
  foldl (λ m a, assign a m) manifests l.

Section Plan.
Context `{Imports} `{Services}.

(** What one iteration of the loop of [savePackages] computes from the
    pattern alone: the assignment and the warnings, or [None] when one of
    the two invariants fails. *)
Definition plan (this : Add) (patternOrigins : list string) (pattern : string)
    : option (Assignment * list Output) :=
  pkg ← getResolvedPattern (resolver this) pattern;
  ref ← _reference pkg;
  let depType := depTypeOf (rootPatternsToOrigin this) patternOrigins (name pkg) in
  let target := targetOf depType (flagToOrigin this) in
  Some (mkAssignment (registry ref) target (name pkg)
          (this_getPatternVersion this pattern pkg),
        if String.eqb target (flagToOrigin this) then []
        else [OutWarn (Lang "moduleAlreadyInManifest"
                [ArgString (name pkg); depTypeArg depType;
                 ArgString (flagToOrigin this)])]).

(** The package name a conflict warning is about. *)
Definition warnedName (o : Output) : option string :=
  match o with
  | OutWarn (Lang key (ArgString pkgName :: _)) =>
    if String.eqb key "moduleAlreadyInManifest" then Some pkgName else None
  | _ => None
  end.

Definition warnsAbout (pkgName : string) (o : Output) : bool :=
  bool_decide (warnedName o = Some pkgName).

(** The added patterns that resolve to a package of the given name. *)
Definition resolvesTo (this : Add) (pkgName : string) (pattern : string) : bool :=
  bool_decide (name <$> getResolvedPattern (resolver this) pattern = Some pkgName).
End Plan.

(** ** The prefix policy in the words of the specification *)

(** The configured save-prefix as the specification has it, "string or
    null": the option when it is a string, nothing when it is not set. *)
Definition configuredPrefix (config : Config) : option string :=
  match getOption config "save-prefix" with
  | JsString prefix => Some prefix
  | _ => None
  end.

(** "prefix = [~] if tilde is set; else empty if exact is set or the
    save-exact option is set or the configured prefix is the empty string;
    else the configured prefix if non-empty; else [^]". *)
Definition firstMatchPrefix (flags : Flags) (config : Config) : string :=
  if tilde flags then "~"
  else if exact flags then ""
  else if js_Boolean (getOption config "save-exact") then ""
  else match configuredPrefix config with
       | Some prefix => if String.eqb prefix "" then "" else prefix
       | None => "^"
       end.

(** ** The effective origin in the words of the amended conflict rule *)

(** The origin of the last entry of the index, in key order, whose key
    starts with [name@]. *)
Definition lastOrigin (origins : PatternOrigins) (pkgName : string) : option string :=
  snd <$> last (filter (λ entry, String.prefix (pkgName +:+ "@") entry.1 = true)
                  origins).

(** That origin when there is one and it is not empty, the requested origin
    otherwise. *)
Definition effectiveOrigin (origins : PatternOrigins) (pkgName requested : string)
    : string :=
  match lastOrigin origins pkgName with
  | Some existing => if String.eqb existing "" then requested else existing
  | None => requested
  end.

(** ** The conflict rule in the words of the specification *)

Section Claimed.
Context `{Imports} `{Services} `{!Install}.

(** "If the index already classifies some pattern with prefix [name@] under
    an origin different from the requested one, the entry is written under
    that existing origin, in that section only, a conflict warning naming
    the package, the existing origin and the requested origin is emitted
    exactly once for that package, and no entry for the name is added under
    the requested origin." *)
Definition existingOriginWins (this : Add) : Prop :=
  ∀ this' i pattern pkg ref key existing,
    savePackages this = (Ok (), this') →
    addedPatterns this !! i = Some pattern →
    getResolvedPattern (resolver this) pattern = Some pkg →
    _reference pkg = Some ref →
    (key, existing) ∈ (Install_fetchRequestFromCwd this []).2 →
    String.prefix (name pkg +:+ "@") key = true →
    existing ≠ flagToOrigin this →
    (∀ origin,
       is_Some (cell (rootManifests (config this')) (registry ref) origin (name pkg))
       ↔ origin = existing)
    ∧ cell (rootManifests (config this')) (registry ref) (flagToOrigin this) (name pkg)
      = cell (rootManifests (config this)) (registry ref) (flagToOrigin this) (name pkg)
    ∧ ∃ outs,
        reporter this' = reporter this ++ outs
        ∧ filter (λ o, warnedName o = Some (name pkg)) outs
          = [OutWarn (Lang "moduleAlreadyInManifest"
               [ArgString (name pkg); ArgString existing;
                ArgString (flagToOrigin this)])].
End Claimed.

(** ** Concrete invocations *)

Module Demo.
Definition no_flags : Flags := mkFlags false false false false false false.
Definition dev_flag : Flags := mkFlags true false false false false false.
Definition peer_flag : Flags := mkFlags false false true false false false.
Definition tilde_exact : Flags := mkFlags false false false true true false.

(** A project at /project whose configuration sets save-prefix to [^]. *)
Definition project (workspaceRoot : option string) (manifests : Manifests) : Config :=
  mkConfig "/project" workspaceRoot "/project"
    (λ option, if String.eqb option "save-prefix" then JsString "^" else JsUndefined)
    manifests.

Definition npm : PackageReference := mkReference "npm".
Definition lodash : Manifest := mkManifest "lodash" "4.17.21" (Some npm).
Definition lodash400 : Manifest := mkManifest "lodash" "4.0.0" (Some npm).
Definition tarball : Manifest := mkManifest "a@b" "1.0.0" (Some npm).

(** lodash is a devDependency; [yarn add lodash] asks for dependencies. *)
Definition dev_manifests : Manifests :=
  {[ "npm" := {[ "devDependencies" := {[ "lodash" := "^3.0.0" ]} ]} ]}.

(** No dependency yet; [yarn add --peer lodash]. *)
Definition no_dependencies : Manifests := {[ "npm" := ∅ ]}.

(** lodash is listed in two sections; [yarn add --dev lodash]. *)
Definition two_sections : Manifests :=
  {[ "npm" := {[ "dependencies" := {[ "lodash" := "^3.0.0" ]};
                 "devDependencies" := {[ "lodash" := "^2.0.0" ]} ]} ]}.

Definition resolved : list (string * Manifest) := [("lodash", lodash)].

(** The instance once [preparePatterns] has rewritten the argument. *)
Definition prepared (flags : Flags) (manifests : Manifests)
    : @Add (Sample.services resolved) :=
  (@preparePatterns Sample.imports (Sample.services resolved)
     (@new_Add (Sample.services resolved) ["lodash"] flags
        (project None manifests) [] (mkLockfile None)) []).2.

Definition at_root : @Add (Sample.services resolved) :=
  @new_Add (Sample.services resolved) ["lodash"] no_flags
    (project (Some "/project") dev_manifests) [] (mkLockfile None).

(** A superclass like [Sample.install] whose lockfile cannot be read. *)
Definition unreadable_lockfile : @Install (Sample.services resolved) :=
  {| Install_init := λ this, @preparePatterns Sample.imports (Sample.services resolved) this [];
     Install_fetchRequestFromCwd := λ this _, ((), Sample.root_patterns (config this));
     Lockfile_fromDirectory :=
       λ _ reporter, (Throw (MessageError (Lang "lockfileUnreadable" [])), reporter);
     wrapLifecycle := λ _ _ factory state, factory state |}.

(** A configuration that sets save-prefix and nothing else. *)
Definition with_prefix (prefix : string) : Config :=
  mkConfig "/project" None "/project"
    (λ option, if String.eqb option "save-prefix" then JsString prefix
               else JsUndefined)
    ∅.

(** The instance [yarn add] constructs in /project, before [init]. *)
Definition constructed (args : list string) (flags : Flags) (manifests : Manifests)
    : @Add (Sample.services resolved) :=
  @new_Add (Sample.services resolved) args flags (project None manifests) []
    (mkLockfile None).
(** Version 3 of lodash, and a project that has lodash 2 as a
    devDependency. *)
Definition lodash3 : Manifest := mkManifest "lodash" "3.10.1" (Some npm).
Definition older_dev : Manifests :=
  {[ "npm" := {[ "devDependencies" := {[ "lodash" := "^2.0.0" ]} ]} ]}.

(** The instance after [yarn add lodash@^3.0.0 lodash@^4.0.0] has resolved
    and rewritten its two arguments, which are two packages of one name. *)
Definition two_versions : @Add (Sample.services resolved) :=
  @set_resolver (Sample.services resolved)
    [("lodash@^3.0.0", lodash3); ("lodash@^4.0.0", lodash)]
    (set_addedPatterns ["lodash@^3.0.0"; "lodash@^4.0.0"]
       (constructed ["lodash@^3.0.0"; "lodash@^4.0.0"] no_flags older_dev)).

(** A superclass whose [fetchRequestFromCwd] fills the index with the
    entries it is handed; the rest is as in [Sample.install]. *)
Definition handed (index : PatternOrigins) : @Install (Sample.services resolved) :=
  {| Install_init := λ this, @preparePatterns Sample.imports (Sample.services resolved) this [];
     Install_fetchRequestFromCwd := λ _ _, ((), index);
     Lockfile_fromDirectory := λ _ reporter, (Ok (mkLockfile (Some ())), reporter);
     wrapLifecycle := λ _ _ factory state, factory state |}.

(** An instance whose lockfile has a cache, for [bailout]. *)
Definition with_cache : @Add (Sample.services resolved) :=
  @new_Add (Sample.services resolved) ["lodash"] no_flags
    (project None dev_manifests) [] (mkLockfile (Some ())).
End Demo.

(** ** Facts about assignments *)

Section AssignFacts.
Implicit Types (a b : Assignment) (m : Manifests).

Lemma assignVersion_again (object : ManifestObject) t n v v' :
  assignVersion (assignVersion object t n v) t n v' = assignVersion object t n v'.
Proof.
  unfold assignVersion.
  rewrite lookup_insert_eq. simpl.
  by rewrite !insert_insert_eq.
Qed.

Lemma assignVersion_swap (object : ManifestObject) t n v t' n' v' :
  (t, n) ≠ (t', n') →
  assignVersion (assignVersion object t n v) t' n' v'
  = assignVersion (assignVersion object t' n' v') t n v.
Proof.
  intros Hne. unfold assignVersion.
  destruct (decide (t = t')) as [<-|Ht].
  - assert (n ≠ n') by congruence.
    rewrite !lookup_insert_eq. simpl.
    rewrite !insert_insert_eq. f_equal. by apply insert_insert_ne.
  - rewrite (lookup_insert_ne _ t t') by done.
    rewrite (lookup_insert_ne _ t' t) by done.
    by apply insert_insert_ne.
Qed.

Lemma assign_again a b m :
  a_cell a = a_cell b → assign b (assign a m) = assign b m.
Proof.
  destruct a as [r t n v], b as [r' t' n' v']. unfold a_cell, assign. simpl.
  intros [= <- <- <-].
  destruct (m !! r) as [object|] eqn:Hm; rewrite ?Hm; [|done].
  rewrite lookup_insert_eq, insert_insert_eq.
  by rewrite assignVersion_again.
Qed.

Lemma assign_swap a b m :
  a_cell a ≠ a_cell b → assign b (assign a m) = assign a (assign b m).
Proof.
  destruct a as [r t n v], b as [r' t' n' v']. unfold a_cell, assign. simpl.
  intros Hne. destruct (decide (r = r')) as [<-|Hr].
  - destruct (m !! r) as [object|] eqn:Hm; rewrite ?Hm; [|done].
    rewrite !lookup_insert_eq, !insert_insert_eq.
    f_equal. apply assignVersion_swap. congruence.
  - destruct (m !! r) as [object|] eqn:Hm, (m !! r') as [object'|] eqn:Hm';
      rewrite ?lookup_insert_ne, ?Hm, ?Hm' by done; try done.
    by apply insert_insert_ne.
Qed.

Lemma assign_all_cons a l m :
  assign_all (a :: l) m = assign_all l (assign a m).
Proof. done. Qed.

Lemma assign_all_snoc l a m :
  assign_all (l ++ [a]) m = assign a (assign_all l m).
Proof. unfold assign_all. by rewrite foldl_app. Qed.

(** An assignment made first is absorbed by the same assignment made last. *)
Lemma assign_absorbed a l m :
  assign a (assign_all l (assign a m)) = assign a (assign_all l m).
Proof.
  revert m. induction l as [|b l IH]; intros m.
  - by apply assign_again.
  - rewrite !assign_all_cons.
    destruct (decide (a_cell a = a_cell b)) as [Heq|Hne].
    + by rewrite (assign_again a b m Heq).
    + rewrite (assign_swap a b m Hne). apply IH.
Qed.

Lemma assign_all_idempotent l m :
  assign_all l (assign_all l m) = assign_all l m.
Proof.
  induction l as [|a l IH] using rev_ind; [done|].
  rewrite !assign_all_snoc.
  rewrite assign_absorbed. by rewrite IH.
Qed.

Lemma assign_lookup_is_Some a m r :
  is_Some (assign a m !! r) ↔ is_Some (m !! r).
Proof.
  unfold assign. destruct (m !! a_registry a) as [object|] eqn:Hm; [|done].
  destruct (decide (a_registry a = r)) as [<-|Hr].
  - rewrite lookup_insert_eq, Hm. split; eauto.
  - by rewrite lookup_insert_ne.
Qed.

Lemma assign_all_lookup_is_Some l m r :
  is_Some (assign_all l m !! r) ↔ is_Some (m !! r).
Proof.
  revert m. induction l as [|a l IH]; intros m; [done|].
  rewrite assign_all_cons, IH. apply assign_lookup_is_Some.
Qed.

Lemma cell_assign_eq a m :
  is_Some (m !! a_registry a) →
  cell (assign a m) (a_registry a) (a_target a) (a_name a) = Some (a_version a).
Proof.
  intros [object Hm]. unfold cell, assign, assignVersion. rewrite Hm.
  rewrite lookup_insert_eq. simpl. rewrite lookup_insert_eq. simpl.
  by rewrite lookup_insert_eq.
Qed.

Lemma cell_assign_ne a m r t n :
  a_cell a ≠ (r, t, n) → cell (assign a m) r t n = cell m r t n.
Proof.
  destruct a as [r' t' n' v]. unfold a_cell, cell, assign, assignVersion. simpl.
  intros Hne. destruct (m !! r') as [object|] eqn:Hm; [|done].
  destruct (decide (r' = r)) as [->|Hr]; [|by rewrite lookup_insert_ne].
  rewrite lookup_insert_eq, Hm. simpl.
  destruct (decide (t' = t)) as [->|Ht]; [|by rewrite lookup_insert_ne].
  rewrite lookup_insert_eq. simpl.
  assert (n' ≠ n) by congruence.
  rewrite lookup_insert_ne by done.
  by destruct (object !! t).
Qed.

Lemma cell_assign_is_Some a m r t n :
  is_Some (cell m r t n) → is_Some (cell (assign a m) r t n).
Proof.
  intros Hc. destruct (decide (a_cell a = (r, t, n))) as [Heq|Hne].
  - destruct a as [r' t' n' v]. unfold a_cell in Heq. simpl in Heq.
    injection Heq as -> -> ->.
    rewrite (cell_assign_eq (mkAssignment r t n v)); [eauto|]. simpl.
    unfold cell in Hc. destruct (m !! r); [eauto|]. by destruct Hc.
  - by rewrite cell_assign_ne.
Qed.

Lemma cell_assign_all_is_Some l m r t n :
  is_Some (cell m r t n) → is_Some (cell (assign_all l m) r t n).
Proof.
  revert m. induction l as [|a l IH]; intros m Hc; [done|].
  rewrite assign_all_cons. apply IH. by apply cell_assign_is_Some.
Qed.

Lemma cell_assign_all_ne l m r t n :
  Forall (λ a, a_cell a ≠ (r, t, n)) l →
  cell (assign_all l m) r t n = cell m r t n.
Proof.
  revert m. induction l as [|a l IH]; intros m Hl; [done|].
  inversion Hl; subst. rewrite assign_all_cons, IH by done.
  by apply cell_assign_ne.
Qed.
End AssignFacts.

(** ** The merge loop runs its plan *)

Section LoopFacts.
Context `{Imports} `{Services} `{!Install}.
Implicit Types (this : Add) (m : Manifests) (rep : list Output).

Lemma savePackages_loop_cons this po pattern rest m rep :
  savePackages_loop this po (pattern :: rest) m rep =
  match getResolvedPattern (resolver this) pattern with
  | None => (Throw (InvariantViolation ("missing package " +:+ pattern)), rep)
  | Some pkg =>
    match plan this po pattern with
    | None => (Throw (InvariantViolation "expected package reference"), rep)
    | Some (a, outs) =>
      match m !! a_registry a with
      | None => (Throw (TypeError "manifests[ref.registry] is undefined"), rep)
      | Some _ => savePackages_loop this po rest (assign a m) (rep ++ outs)
      end
    end
  end.
Proof.
  unfold plan, assign. simpl.
  destruct (getResolvedPattern (resolver this) pattern) as [pkg|]; simpl; [|done].
  destruct (_reference pkg) as [ref|]; simpl; [|done].
  destruct (m !! registry ref) as [object|]; [|done].
  destruct (String.eqb _ (flagToOrigin this)); simpl; [|done].
  by rewrite app_nil_r.
Qed.

(** A run of the loop that returns has followed its plan. *)
Lemma savePackages_loop_Ok this po added m rep m' rep' :
  savePackages_loop this po added m rep = (Ok m', rep') →
  ∃ plans,
    Forall2 (λ pattern p, plan this po pattern = Some p) added plans
    ∧ Forall (λ a, is_Some (m !! a_registry a)) plans.*1
    ∧ m' = assign_all plans.*1 m
    ∧ rep' = rep ++ concat plans.*2.
Proof.
  revert m rep. induction added as [|pattern rest IH]; intros m rep Hrun.
  - injection Hrun as <- <-. exists []. simpl. rewrite app_nil_r.
    repeat split; constructor.
  - rewrite savePackages_loop_cons in Hrun.
    destruct (getResolvedPattern (resolver this) pattern); [|done].
    destruct (plan this po pattern) as [[a outs]|] eqn:Hplan; [|done].
    destruct (m !! a_registry a) as [object|] eqn:Hm; [|done].
    apply IH in Hrun as (plans & Hplans & Hregs & -> & ->).
    exists ((a, outs) :: plans). simpl. repeat split.
    + by constructor.
    + constructor; [eauto|].
      eapply Forall_impl; [exact Hregs|]. intros b Hb. simpl in Hb.
      by apply assign_lookup_is_Some in Hb.
    + by rewrite <-app_assoc.
Qed.

(** A plan whose registries all have a manifest runs to the end. *)
Lemma savePackages_loop_run this po added plans m rep :
  Forall2 (λ pattern p, plan this po pattern = Some p) added plans →
  Forall (λ a, is_Some (m !! a_registry a)) plans.*1 →
  savePackages_loop this po added m rep
  = (Ok (assign_all plans.*1 m), rep ++ concat plans.*2).
Proof.
  intros Hplans. revert m rep.
  induction Hplans as [|pattern [a outs] added plans Hplan _ IH]; intros m rep Hregs.
  - simpl. by rewrite app_nil_r.
  - rewrite savePackages_loop_cons. rewrite Hplan.
    unfold plan in Hplan.
    destruct (getResolvedPattern (resolver this) pattern); [|done].
    simpl in Hregs. inversion Hregs as [|? ? [object Hm] Hrest]; subst.
    rewrite Hm. rewrite IH.
    + simpl. by rewrite <-app_assoc.
    + eapply Forall_impl; [exact Hrest|]. intros b Hb. simpl.
      by apply assign_lookup_is_Some.
Qed.

Lemma plan_resolved this po pattern a outs :
  plan this po pattern = Some (a, outs) →
  ∃ pkg ref,
    getResolvedPattern (resolver this) pattern = Some pkg
    ∧ _reference pkg = Some ref
    ∧ a_registry a = registry ref
    ∧ a_name a = name pkg
    ∧ a_target a =
        targetOf (depTypeOf (rootPatternsToOrigin this) po (name pkg))
          (flagToOrigin this).
Proof.
  unfold plan. intros Hplan.
  destruct (getResolvedPattern (resolver this) pattern) as [pkg|]; [|done].
  simpl in Hplan. destruct (_reference pkg) as [ref|] eqn:Href; [|done].
  simpl in Hplan. injection Hplan as <- <-. exists pkg, ref. simpl.
  by repeat split.
Qed.

(** With a classification that is used, [depType] is the target. *)
Lemma targetOf_conflict depType flag :
  targetOf depType flag ≠ flag → depType = Some (targetOf depType flag).
Proof.
  destruct depType as [origin|]; simpl; [|done].
  unfold str_or. by destruct (truthy origin).
Qed.

(** The warnings of one iteration that are about a given package. *)
Lemma plan_warnings this po pattern a outs pkgName :
  plan this po pattern = Some (a, outs) →
  let target :=
    targetOf (depTypeOf (rootPatternsToOrigin this) po pkgName)
      (flagToOrigin this) in
  filter (λ o, warnedName o = Some pkgName) outs =
  if decide (name <$> getResolvedPattern (resolver this) pattern = Some pkgName
             ∧ target ≠ flagToOrigin this)
  then [OutWarn (Lang "moduleAlreadyInManifest"
          [ArgString pkgName; ArgString target; ArgString (flagToOrigin this)])]
  else [].
Proof.
  intros Hplan target. unfold plan in Hplan.
  destruct (getResolvedPattern (resolver this) pattern) as [pkg|]; [|done].
  simpl in Hplan. destruct (_reference pkg) as [ref|]; [|done].
  simpl in Hplan. injection Hplan as <- <-. simpl.
  destruct (String.eqb _ (flagToOrigin this)) eqn:Heq.
  - apply String.eqb_eq in Heq. rewrite filter_nil.
    case_decide as Hd; [|done]. destruct Hd as [[= <-] Hne]. done.
  - apply String.eqb_neq in Heq.
    rewrite filter_cons, filter_nil. simpl.
    destruct (decide (name pkg = pkgName)) as [<-|Hn].
    + rewrite decide_True by done. rewrite decide_True by done.
      by rewrite (targetOf_conflict _ _ Heq).
    + rewrite decide_False by congruence.
      rewrite decide_False; [done|]. intros [[= ?] _]. done.
Qed.
End LoopFacts.

(** ** The version spec resolver *)

Section VersionSpec.
Context `{Imports}.

(** C4.  A pattern classified as exotic is returned unchanged, whatever the
    flags, the configuration and the resolved package. *)
Theorem getPatternVersion_exotic flags config pattern pkg :
  getExoticResolver pattern = true →
  getPatternVersion flags config pattern pkg = pattern.
Proof. intros Hexotic. unfold getPatternVersion. by rewrite Hexotic. Qed.

(** C3.  For a pattern that is not exotic and carries a range, the range is
    returned verbatim when the resolved version satisfies it or when the
    range is itself exotic, whatever the flags and the configuration. *)
Theorem getPatternVersion_range_verbatim flags config pattern pkg :
  getExoticResolver pattern = false →
  hasVersion (normalizePattern pattern) = true →
  range (normalizePattern pattern) ≠ "" →
  semver_satisfies (version pkg) (range (normalizePattern pattern)) = true
  ∨ getExoticResolver (range (normalizePattern pattern)) = true →
  getPatternVersion flags config pattern pkg = range (normalizePattern pattern).
Proof.
  intros Hplain Hhas Hrange Hkeep. unfold getPatternVersion.
  rewrite Hplain, Hhas.
  apply String.eqb_neq in Hrange. unfold truthy. rewrite Hrange. simpl.
  by destruct Hkeep as [-> | ->]; rewrite ?orb_true_r.
Qed.

(** Where the tilde flag, the exact flag or the save-exact option is set, or
    the save-prefix option is a string, lines 75-84 follow the prefix policy:
    the result is the first matching prefix followed by the resolved
    version. *)
Lemma getPatternVersion_prefix flags config pattern pkg :
  getExoticResolver pattern = false →
  hasVersion (normalizePattern pattern)
    && truthy (range (normalizePattern pattern))
    && (semver_satisfies (version pkg) (range (normalizePattern pattern))
        || getExoticResolver (range (normalizePattern pattern))) = false →
  tilde flags || exact flags || js_Boolean (getOption config "save-exact") = true
  ∨ (∃ prefix, getOption config "save-prefix" = JsString prefix) →
  getPatternVersion flags config pattern pkg
    = firstMatchPrefix flags config +:+ version pkg
  ∧ (tilde flags = true →
     ∃ rest, getPatternVersion flags config pattern pkg = String "~" rest).
Proof.
  intros Hplain Hdrop Hset.
  unfold getPatternVersion, firstMatchPrefix, configuredPrefix.
  rewrite Hplain, Hdrop. split.
  - destruct (tilde flags); [done|].
    destruct (exact flags); [done|]. simpl.
    destruct (js_Boolean _); [done|]. simpl.
    destruct Hset as [?|[prefix ->]]; [done|]. simpl.
    unfold str_or, truthy.
    by destruct (String.eqb prefix "").
  - intros ->. by eexists.
Qed.

(** C2.  The code departs from the prefix policy when the save-prefix
    option is not set: for a pattern that is not exotic and whose range is
    not kept, without the tilde flag, the exact flag and the save-exact
    option, the policy gives [^] followed by the version, and lines 63-84
    give the text of [undefined] followed by the version, because line 63
    has applied [String] to the option before line 81 tests it. *)
Theorem getPatternVersion_unset_prefix flags config pattern pkg :
  getExoticResolver pattern = false →
  hasVersion (normalizePattern pattern)
    && truthy (range (normalizePattern pattern))
    && (semver_satisfies (version pkg) (range (normalizePattern pattern))
        || getExoticResolver (range (normalizePattern pattern))) = false →
  tilde flags = false →
  exact flags = false →
  js_Boolean (getOption config "save-exact") = false →
  getOption config "save-prefix" = JsUndefined →
  getPatternVersion flags config pattern pkg = "undefined" +:+ version pkg
  ∧ firstMatchPrefix flags config +:+ version pkg = "^" +:+ version pkg
  ∧ getPatternVersion flags config pattern pkg
    ≠ firstMatchPrefix flags config +:+ version pkg.
Proof.
  intros Hplain Hdrop Htilde Hexact Hsave Hunset.
  assert (getPatternVersion flags config pattern pkg = "undefined" +:+ version pkg)
    as Hcode.
  { unfold getPatternVersion.
    by rewrite Hplain, Hdrop, Htilde, Hexact, Hsave, Hunset. }
  assert (firstMatchPrefix flags config = "^") as Hpolicy.
  { unfold firstMatchPrefix, configuredPrefix.
    by rewrite Htilde, Hexact, Hsave, Hunset. }
  rewrite Hcode, Hpolicy. by repeat split.
Qed.



End VersionSpec.

(** ** The manifest merger *)

Section Merger.
Context `{Imports} `{Services} `{!Install}.
Implicit Types (this : Add) (m : Manifests) (rep : list Output).

(** A successful [savePackages] has run the plan of every added pattern
    against the index it fetched, then saved the manifests. *)
Lemma savePackages_Ok this this' :
  savePackages this = (Ok (), this') →
  ∃ plans,
    Forall2
      (λ pattern p,
         plan (set_rootPatternsToOrigin (Install_fetchRequestFromCwd this []).2 this)
           (Install_fetchRequestFromCwd this []).2.*1 pattern = Some p)
      (addedPatterns this) plans
    ∧ Forall (λ a, is_Some (rootManifests (config this) !! a_registry a)) plans.*1
    ∧ rootManifests (config this')
      = assign_all plans.*1 (rootManifests (config this))
    ∧ reporter this' = reporter this ++ concat plans.*2.
Proof.
  unfold savePackages. simpl.
  destruct (savePackages_loop _ _ _ _ _) as [[manifests|e] reporter'] eqn:Hloop;
    [|done].
  intros [= <-]. simpl.
  apply savePackages_loop_Ok in Hloop as (plans & Hplans & Hregs & -> & ->).
  by exists plans.
Qed.

(** The warnings of a whole plan that are about one package: one per added
    pattern that resolves to it, when its target is not the requested
    origin. *)
Lemma plans_warnings this po added plans pkgName :
  Forall2 (λ pattern p, plan this po pattern = Some p) added plans →
  filter (λ o, warnedName o = Some pkgName) (concat plans.*2) =
  if decide (targetOf (depTypeOf (rootPatternsToOrigin this) po pkgName)
               (flagToOrigin this) = flagToOrigin this)
  then []
  else replicate
         (length (filter
            (λ pattern,
               name <$> getResolvedPattern (resolver this) pattern = Some pkgName)
            added))
         (OutWarn (Lang "moduleAlreadyInManifest"
            [ArgString pkgName;
             ArgString (targetOf (depTypeOf (rootPatternsToOrigin this) po pkgName)
                          (flagToOrigin this));
             ArgString (flagToOrigin this)])).
Proof.
  induction 1 as [|pattern [a outs] added plans Hplan _ IH].
  - simpl. by case_decide.
  - change (concat ((a, outs) :: plans).*2) with (outs ++ concat plans.*2).
    rewrite filter_app, IH.
    rewrite (plan_warnings _ _ _ _ _ pkgName Hplan). simpl.
    rewrite filter_cons.
    case_decide as Htarget.
    + rewrite decide_False; [done|]. by intros [_ ?].
    + destruct (decide (name <$> getResolvedPattern (resolver this) pattern
                        = Some pkgName)) as [Hres|Hres].
      * by rewrite decide_True.
      * rewrite decide_False; [done|]. by intros [? _].
Qed.

(** Where a successful [savePackages] leaves an added package. *)
Lemma savePackages_effect this this' i pattern pkg ref :
  savePackages this = (Ok (), this') →
  addedPatterns this !! i = Some pattern →
  getResolvedPattern (resolver this) pattern = Some pkg →
  _reference pkg = Some ref →
  let origins := (Install_fetchRequestFromCwd this []).2 in
  let target :=
    targetOf (depTypeOf origins origins.*1 (name pkg)) (flagToOrigin this) in
  is_Some (cell (rootManifests (config this')) (registry ref) target (name pkg))
  ∧ (∀ r origin, origin ≠ target →
       cell (rootManifests (config this')) r origin (name pkg)
       = cell (rootManifests (config this)) r origin (name pkg)).
Proof.
  intros Hsave Hi Hres Href origins target.
  apply savePackages_Ok in Hsave as (plans & Hplans & Hregs & -> & _).
  fold origins in Hplans. split.
  - destruct (Forall2_lookup_l _ _ _ _ _ Hplans Hi) as ([a outs] & Hj & Hplan).
    apply plan_resolved in Hplan as (pkg' & ref' & Hres' & Href' & Hr & Hn & Ht).
    simpl in Hres', Ht. rewrite Hres in Hres'. injection Hres' as <-.
    rewrite Href in Href'. injection Href' as <-.
    fold target in Ht.
    assert (plans.*1 !! i = Some a) as Hja.
    { rewrite list_lookup_fmap, Hj. done. }
    apply take_drop_middle in Hja.
    rewrite <-Hja. unfold assign_all. rewrite foldl_app. simpl.
    apply cell_assign_all_is_Some.
    rewrite <-Hr, <-Hn, <-Ht. rewrite cell_assign_eq; [eauto|].
    apply assign_all_lookup_is_Some.
    rewrite Forall_forall in Hregs. apply Hregs.
    rewrite <-Hja. set_solver.
  - intros r origin Horigin. apply cell_assign_all_ne.
    apply Forall_forall. intros a Ha.
    apply list_elem_of_fmap in Ha as ([a' outs] & -> & Hin). simpl.
    apply list_elem_of_lookup in Hin as [j Hj].
    destruct (Forall2_lookup_r _ _ _ _ _ Hplans Hj) as (pattern' & _ & Hplan).
    apply plan_resolved in Hplan as (pkg' & ref' & _ & _ & _ & Hn & Ht).
    simpl in Ht. unfold a_cell. intros [= _ Htarget Hname].
    apply Horigin. rewrite <-Htarget, Ht. unfold target.
    rewrite <-Hname, Hn. done.
Qed.
End Merger.

Section MergerClaims.
Context `{Imports} `{Services} `{!Install}.
Implicit Types (this : Add).

(** The plan reads the resolver, the flags, the options, the index and the
    requested origin, and nothing else of [this]. *)
Lemma plan_ext this1 this2 po pattern :
  resolver this1 = resolver this2 →
  flags this1 = flags this2 →
  getOption (config this1) = getOption (config this2) →
  rootPatternsToOrigin this1 = rootPatternsToOrigin this2 →
  flagToOrigin this1 = flagToOrigin this2 →
  plan this1 po pattern = plan this2 po pattern.
Proof.
  intros Hres Hflags Hopt Hidx Hflag.
  unfold plan, this_getPatternVersion, getPatternVersion.
  by rewrite Hres, Hflags, Hopt, Hidx, Hflag.
Qed.

(** C7.  Running the merge again on the state the first run left, with the
    index unchanged, succeeds and leaves the manifests as they are. *)
Theorem savePackages_idempotent this this1 :
  savePackages this = (Ok (), this1) →
  (Install_fetchRequestFromCwd this1 []).2
    = (Install_fetchRequestFromCwd this []).2 →
  ∃ this2,
    savePackages this1 = (Ok (), this2)
    ∧ rootManifests (config this2) = rootManifests (config this1).
Proof.
  intros Hsave Hindex.
  pose proof Hsave as Hfirst.
  apply savePackages_Ok in Hfirst as (plans & Hplans & Hregs & Hm & _).
  assert (addedPatterns this1 = addedPatterns this
          ∧ resolver this1 = resolver this
          ∧ flags this1 = flags this
          ∧ getOption (config this1) = getOption (config this)
          ∧ flagToOrigin this1 = flagToOrigin this) as (Ha & Hr & Hf & Ho & Hfl).
  { unfold savePackages in Hsave.
    destruct (savePackages_loop _ _ _ _ _) as [[manifests|e] reporter'];
      [|done].
    by injection Hsave as <-. }
  unfold savePackages. rewrite Hindex. simpl. rewrite Ha.
  rewrite (savePackages_loop_run _ _ _ plans).
  - eexists. split; [done|]. simpl.
    unfold getRootManifests. rewrite Hm. apply assign_all_idempotent.
  - eapply Forall2_impl; [exact Hplans|]. intros pattern p <-.
    by apply plan_ext.
  - unfold getRootManifests. rewrite Hm.
    eapply Forall_impl; [exact Hregs|]. intros a Ha'. simpl.
    by apply assign_all_lookup_is_Some.
Qed.

End MergerClaims.

(** ** The bailout gate, [init] and [run] *)

Section Gate.
Context `{Imports} `{Services} `{!Install}.
Implicit Types (this : Add).

(** C6.  [bailout] returns false on every input: at once and with [this]
    untouched when the lockfile has no cache; otherwise after the integrity
    check.  When the integrity file is missing and a lockfile exists on
    disk the force flag of the scripts is set on return; in every case the
    rest of the instance is as it was. *)
Theorem bailout_returns_false this patterns workspaceLayout :
  (bailout this patterns workspaceLayout).1 = false
  ∧ (cache (lockfile this) = None →
     (bailout this patterns workspaceLayout).2 = this)
  ∧ (∀ lockfileCache,
       cache (lockfile this) = Some lockfileCache →
       (bailout this patterns workspaceLayout).2 =
       if integrityFileMissing
            (integrityChecker_check patterns lockfileCache (flags this)
               workspaceLayout)
          && fs_exists (path_join (lockfileFolder (config this)) LOCKFILE_FILENAME)
       then setForce true this
       else this)
  ∧ (∀ lockfileCache,
       cache (lockfile this) = Some lockfileCache →
       integrityFileMissing
         (integrityChecker_check patterns lockfileCache (flags this)
            workspaceLayout) = true →
       fs_exists (path_join (lockfileFolder (config this)) LOCKFILE_FILENAME)
         = true →
       scriptsForce (bailout this patterns workspaceLayout).2 = true)
  ∧ (∀ lockfileCache,
       cache (lockfile this) = Some lockfileCache →
       integrityFileMissing
         (integrityChecker_check patterns lockfileCache (flags this)
            workspaceLayout)
       && fs_exists (path_join (lockfileFolder (config this)) LOCKFILE_FILENAME)
         = false →
       scriptsForce (bailout this patterns workspaceLayout).2 = scriptsForce this)
  ∧ flags (bailout this patterns workspaceLayout).2 = flags this
  ∧ config (bailout this patterns workspaceLayout).2 = config this
  ∧ reporter (bailout this patterns workspaceLayout).2 = reporter this
  ∧ lockfile (bailout this patterns workspaceLayout).2 = lockfile this
  ∧ resolver (bailout this patterns workspaceLayout).2 = resolver this
  ∧ rootPatternsToOrigin (bailout this patterns workspaceLayout).2
    = rootPatternsToOrigin this
  ∧ args (bailout this patterns workspaceLayout).2 = args this
  ∧ flagToOrigin (bailout this patterns workspaceLayout).2 = flagToOrigin this
  ∧ addedPatterns (bailout this patterns workspaceLayout).2 = addedPatterns this.
Proof.
  unfold bailout. destruct (cache (lockfile this)) as [lockfileCache|].
  - split; [done|]. split; [done|]. split; [by intros ? [= <-]|].
    split; [intros ? [= <-] -> ->; done|].
    split; [intros ? [= <-] ->; done|].
    by destruct (integrityFileMissing _ && fs_exists _).
  - by repeat split.
Qed.

(** Line 125 holds exactly when the workspace root folder is set, is not the
    empty string, and is the current working directory. *)
Lemma isWorkspaceRoot_true (c : Config) :
  isWorkspaceRoot c = true
  ↔ ∃ root, workspaceRootFolder c = Some root ∧ root ≠ "" ∧ cwd c = root.
Proof.
  unfold isWorkspaceRoot, truthy. split.
  - destruct (workspaceRootFolder c) as [root|]; [|done].
    intros [Hroot Hcwd]%andb_true_iff.
    apply negb_true_iff, String.eqb_neq in Hroot.
    apply String.eqb_eq in Hcwd. by exists root.
  - intros (root & -> & Hroot & ->).
    apply String.eqb_neq in Hroot. by rewrite Hroot, String.eqb_refl.
Qed.

(** C8.  At the workspace root, without the ignore-workspace-root-check
    flag, [init] throws the message error of workspacesAddRootCheck and
    leaves the instance, its added patterns and the manifests as they were:
    neither the superclass nor the merger has run. *)
Theorem init_at_workspace_root this :
  isWorkspaceRoot (config this) = true →
  ignoreWorkspaceRootCheck (flags this) = false →
  init this = (Throw (MessageError (Lang "workspacesAddRootCheck" [])), this).
Proof. intros Hroot Hflag. unfold init. by rewrite Hroot, Hflag. Qed.

(** C10.  [run] without arguments throws the message error of
    missingAddDependencies; the configuration and the reporter come back
    unchanged, whatever the lockfile reader and the lifecycle wrapper do. *)
Theorem run_without_arguments cfg rep flags :
  run cfg rep flags []
  = (Throw (MessageError (Lang "missingAddDependencies" [])), (cfg, rep)).
Proof. done. Qed.
End Gate.

(** ** The claims on concrete invocations *)

Lemma getPatternVersion_exotic_witness :
  @getPatternVersion Sample.imports Demo.tilde_exact (Demo.project None ∅)
    "https://x.com/a.tgz" Demo.tarball
  = "https://x.com/a.tgz".
Proof.
  apply (@getPatternVersion_exotic Sample.imports). reflexivity.
Defined.

Lemma getPatternVersion_range_verbatim_witness :
  @getPatternVersion Sample.imports Demo.tilde_exact (Demo.project None ∅)
    "lodash@~4.0.0" Demo.lodash400
  = "~4.0.0".
Proof.
  apply (@getPatternVersion_range_verbatim Sample.imports Demo.tilde_exact
           (Demo.project None ∅) "lodash@~4.0.0" Demo.lodash400).
  - reflexivity.
  - reflexivity.
  - vm_compute. discriminate.
  - left. reflexivity.
Defined.

Lemma getPatternVersion_prefix_witness :
  @getPatternVersion Sample.imports Demo.tilde_exact (Demo.project None ∅)
    "lodash" Demo.lodash
  = "~4.17.21".
Proof.
  apply (@getPatternVersion_prefix Sample.imports Demo.tilde_exact
           (Demo.project None ∅) "lodash" Demo.lodash);
    [reflexivity|reflexivity|left; reflexivity].
Defined.

Lemma getPatternVersion_unset_prefix_witness :
  @getPatternVersion Sample.imports Demo.no_flags
    (mkConfig "/project" None "/project" (λ _, JsUndefined) ∅)
    "lodash" Demo.lodash
  = "undefined4.17.21"
  ∧ firstMatchPrefix Demo.no_flags
      (mkConfig "/project" None "/project" (λ _, JsUndefined) ∅)
    +:+ version Demo.lodash
    = "^4.17.21".
Proof.
  destruct (@getPatternVersion_unset_prefix Sample.imports Demo.no_flags
              (mkConfig "/project" None "/project" (λ _, JsUndefined) ∅)
              "lodash" Demo.lodash)
    as (Hcode & Hpolicy & _); try reflexivity.
  split; [exact Hcode|exact Hpolicy].
Defined.


Lemma savePackages_idempotent_witness :
  let this := Demo.prepared Demo.peer_flag Demo.no_dependencies in
  let this1 := (@savePackages Sample.imports _ (Sample.install Demo.resolved) this).2 in
  ∃ this2,
    @savePackages Sample.imports _ (Sample.install Demo.resolved) this1 = (Ok (), this2)
    ∧ rootManifests (config this2) = rootManifests (config this1).
Proof.
  intros this this1.
  apply (@savePackages_idempotent Sample.imports _ (Sample.install Demo.resolved)
           this this1).
  - reflexivity.
  - vm_compute. reflexivity.
Defined.

Lemma init_at_workspace_root_witness :
  @init Sample.imports _ (Sample.install Demo.resolved) Demo.at_root
  = (Throw (MessageError (Lang "workspacesAddRootCheck" [])), Demo.at_root).
Proof.
  apply (@init_at_workspace_root Sample.imports _ (Sample.install Demo.resolved)
           Demo.at_root); reflexivity.
Defined.

(** The three end-to-end examples of the specification. *)
Example add_lodash :
  @getPatternVersion Sample.imports Demo.no_flags (Demo.project None ∅)
    "lodash" Demo.lodash = "^4.17.21".
Proof. reflexivity. Qed.

Example add_lodash_with_range :
  @getPatternVersion Sample.imports Demo.tilde_exact (Demo.project None ∅)
    "lodash@~4.0.0" Demo.lodash400 = "~4.0.0".
Proof. reflexivity. Qed.

Example add_left_pad_exact :
  @getPatternVersion Sample.imports
    (mkFlags false false false true false false) (Demo.project None ∅)
    "left-pad" (mkManifest "left-pad" "1.3.0" (Some Demo.npm)) = "1.3.0".
Proof. reflexivity. Qed.

(** Without a save-prefix option the prefix is the text of [undefined]: the
    fallback to [^] needs an empty prefix, which the exact branch takes. *)
Example add_without_save_prefix :
  @getPatternVersion Sample.imports Demo.no_flags
    (mkConfig "/project" None "/project" (λ _, JsUndefined) ∅)
    "lodash" Demo.lodash = "undefined4.17.21".
Proof. reflexivity. Qed.

(** ** Further properties of the command *)

Section Requests.
Context `{Imports} `{Services} `{!Install}.
Implicit Types (this : Add).

(** X1.  [prepareRequests] keeps the requests it is given, in order, and
    appends one npm request that is not optional per argument, in the
    order of the arguments. *)
Theorem prepareRequests_appends this requests :
  prepareRequests this requests
  = requests ++ ((λ pattern, mkRequest pattern "npm" false) <$> args this).
Proof.
  unfold prepareRequests. revert requests.
  induction (args this) as [|pattern rest IH]; intros requests; simpl.
  - by rewrite app_nil_r.
  - rewrite IH. by rewrite <-app_assoc.
Qed.

(** X2.  When several of the three flags are set the constructor takes the
    first in the order dev, optional, peer; the selection is always one of
    the four section names. *)
Theorem flagToOrigin_of_precedence flags :
  flagToOrigin_of flags
  = (if dev flags then "devDependencies"
     else if optional flags then "optionalDependencies"
     else if peer flags then "peerDependencies"
     else "dependencies")
  ∧ flagToOrigin_of flags
    ∈ ["devDependencies"; "optionalDependencies"; "peerDependencies";
       "dependencies"].
Proof.
  unfold flagToOrigin_of.
  destruct (dev flags), (optional flags), (peer flags); simpl;
    (split; [done|set_solver]).
Qed.
End Requests.

Section VersionSpecMore.
Context `{Imports}.

(** X3.  The fallback to [^] of line 81 is never taken: for a pattern that
    is not exotic and whose range is not kept, without the tilde flag, the
    exact flag and the save-exact option, the prefix is the text of the
    save-prefix option as [String] gives it. *)
Theorem getPatternVersion_configured_prefix flags config pattern pkg :
  getExoticResolver pattern = false →
  hasVersion (normalizePattern pattern)
    && truthy (range (normalizePattern pattern))
    && (semver_satisfies (version pkg) (range (normalizePattern pattern))
        || getExoticResolver (range (normalizePattern pattern))) = false →
  tilde flags = false →
  exact flags = false →
  js_Boolean (getOption config "save-exact") = false →
  getPatternVersion flags config pattern pkg
  = js_String (getOption config "save-prefix") +:+ version pkg.
Proof.
  intros Hplain Hdrop Htilde Hexact Hsave. unfold getPatternVersion.
  rewrite Hplain, Hdrop, Htilde, Hexact, Hsave. simpl.
  unfold str_or, truthy.
  destruct (String.eqb _ "") eqn:Heq; simpl; [|done].
  apply String.eqb_eq in Heq. by rewrite Heq.
Qed.

(** X4.  With the tilde flag set, the exact flag and the configuration have
    no effect on the version. *)
Theorem getPatternVersion_tilde_overrides flags flags' config config' pattern pkg :
  tilde flags = true →
  tilde flags' = true →
  getPatternVersion flags config pattern pkg
  = getPatternVersion flags' config' pattern pkg.
Proof.
  intros Ht Ht'. unfold getPatternVersion. by rewrite Ht, Ht'.
Qed.

(** X5.  The version computed for a non-empty pattern and a package with a
    non-empty version is never the empty string. *)
Theorem getPatternVersion_not_empty flags config pattern pkg :
  pattern ≠ "" →
  version pkg ≠ "" →
  getPatternVersion flags config pattern pkg ≠ "".
Proof.
  intros Hpattern Hversion. unfold getPatternVersion.
  destruct (getExoticResolver pattern); [done|].
  destruct (hasVersion _ && truthy _ && _) eqn:Hkeep.
  - apply andb_true_iff in Hkeep as [[_ Hrange]%andb_true_iff _].
    unfold truthy in Hrange. apply negb_true_iff in Hrange.
    by apply String.eqb_neq in Hrange.
  - intros Hempty. apply Hversion.
    destruct (version pkg); [done|].
    by destruct (if tilde flags then _ else _).
Qed.
End VersionSpecMore.

Section Sections.

(** X6.  Lines 196-197 round trip on the own entries of the object, for a
    section and a package name other than [__proto__] (an assignment to that
    name creates no entry): after the assignment the entry reads back as the
    version, the section being created when it was missing; every other
    entry of the object reads as before. *)
Theorem assignVersion_lookup (object : ManifestObject) target pkgName version
    origin other :
  target ≠ "__proto__" →
  pkgName ≠ "__proto__" →
  assignVersion object target pkgName version !! origin ≫= (.!! other)
  = if decide (origin = target ∧ other = pkgName) then Some version
    else object !! origin ≫= (.!! other).
Proof.
  intros _ _.
  unfold assignVersion. destruct (decide (origin = target)) as [->|Hne].
  - rewrite lookup_insert_eq. simpl.
    destruct (decide (other = pkgName)) as [->|Hname].
    + rewrite lookup_insert_eq. by rewrite decide_True.
    + rewrite lookup_insert_ne by done.
      rewrite decide_False by (by intros [_ ?]).
      by destruct (object !! target).
  - rewrite lookup_insert_ne by done.
    by rewrite decide_False by (by intros [? _]).
Qed.
End Sections.

Section DepType.

Lemma depTypeOf_snoc origins keys key pkgName :
  depTypeOf origins (keys ++ [key]) pkgName
  = if String.prefix (pkgName +:+ "@") key then property origins key
    else depTypeOf origins keys pkgName.
Proof. unfold depTypeOf. by rewrite foldl_app. Qed.

Lemma property_is_Some (origins : PatternOrigins) key :
  key ∈ origins.*1 → is_Some (property origins key).
Proof.
  induction origins as [|[k v] origins IH]; simpl; [by intros ?%elem_of_nil|].
  destruct (String.eqb k key) eqn:Heq; [eauto|].
  apply String.eqb_neq in Heq. intros Hin. apply IH. set_solver.
Qed.

Lemma property_NoDup (origins : PatternOrigins) key origin :
  NoDup origins.*1 → (key, origin) ∈ origins → property origins key = Some origin.
Proof.
  induction origins as [|[k v] origins IH]; simpl; [by intros _ ?%elem_of_nil|].
  intros [Hk Hnodup]%NoDup_cons Hin.
  destruct (String.eqb k key) eqn:Heq.
  - apply String.eqb_eq in Heq as ->.
    apply elem_of_cons in Hin as [[= ->]|Hin]; [done|].
    destruct Hk. apply list_elem_of_fmap. by exists (key, origin).
  - apply String.eqb_neq in Heq.
    apply elem_of_cons in Hin as [[= ? ?]|Hin]; [done|]. by apply IH.
Qed.

Lemma depTypeOf_None_keys origins keys pkgName :
  keys ⊆ origins.*1 →
  depTypeOf origins keys pkgName = None
  ↔ Forall (λ key, String.prefix (pkgName +:+ "@") key = false) keys.
Proof.
  induction keys as [|key keys IH] using rev_ind; intros Hsub.
  - split; [constructor|done].
  - rewrite depTypeOf_snoc, Forall_app, Forall_singleton.
    destruct (String.prefix _ key) eqn:Hprefix.
    + destruct (property_is_Some origins key) as [origin ->]; [set_solver|].
      split; [done|]. by intros [_ ?].
    + rewrite IH by set_solver. naive_solver.
Qed.

(** X7.  The reduce of lines 183-188 gives null exactly when no key of the
    index starts with [name@]; the package is then recorded under the
    requested origin. *)
Theorem depTypeOf_None origins pkgName flagToOrigin :
  (depTypeOf origins origins.*1 pkgName = None
   ↔ Forall (λ key, String.prefix (pkgName +:+ "@") key = false) origins.*1)
  ∧ (depTypeOf origins origins.*1 pkgName = None →
     targetOf (depTypeOf origins origins.*1 pkgName) flagToOrigin = flagToOrigin).
Proof.
  split; [by apply depTypeOf_None_keys|]. by intros ->.
Qed.

Lemma depTypeOf_last_entries (origins entries : PatternOrigins) pkgName :
  NoDup origins.*1 →
  entries ⊆ origins →
  depTypeOf origins entries.*1 pkgName
  = snd <$> last (filter (λ entry, String.prefix (pkgName +:+ "@") entry.1 = true)
                    entries).
Proof.
  intros Hnodup.
  induction entries as [|[key origin] entries IH] using rev_ind; intros Hsub;
    [done|].
  rewrite fmap_app, filter_app. simpl. rewrite depTypeOf_snoc.
  rewrite filter_cons, filter_nil. simpl.
  destruct (String.prefix _ key) eqn:Hprefix.
  - rewrite decide_True by done. rewrite last_snoc. simpl.
    apply property_NoDup; [done|]. set_solver.
  - rewrite decide_False by done. rewrite app_nil_r. apply IH. set_solver.
Qed.

(** X8.  On an index whose keys are distinct, as the keys of an object are,
    the reduce gives the origin of the last entry whose key starts with
    [name@]: later entries override earlier ones. *)
Theorem depTypeOf_last (origins : PatternOrigins) pkgName :
  NoDup origins.*1 →
  depTypeOf origins origins.*1 pkgName
  = snd <$> last (filter (λ entry, String.prefix (pkgName +:+ "@") entry.1 = true)
                    origins).
Proof. intros Hnodup. by apply depTypeOf_last_entries. Qed.
End DepType.

Section Rewriter.
Context `{Imports} `{Services} `{!Install}.
Implicit Types (this : Add).

(** What the loop of [preparePatterns] leaves alone. *)
Lemma preparePatterns_loop_frame deduped this prepared result this' :
  preparePatterns_loop deduped this prepared = (result, this') →
  flags this' = flags this ∧ config this' = config this
  ∧ reporter this' = reporter this ∧ lockfile this' = lockfile this
  ∧ rootPatternsToOrigin this' = rootPatternsToOrigin this
  ∧ scriptsForce this' = scriptsForce this ∧ args this' = args this
  ∧ flagToOrigin this' = flagToOrigin this.
Proof.
  revert this prepared. induction deduped as [|pattern rest IH];
    intros this prepared; simpl.
  - by intros [= _ <-].
  - destruct (getResolvedPattern (resolver this) pattern) as [pkg|];
      [|by intros [= _ <-]].
    destruct (String.eqb _ pattern); intros Hrun; by apply IH in Hrun.
Qed.

Lemma preparePatterns_loop_Ok deduped this prepared result this' :
  preparePatterns_loop deduped this prepared = (Ok result, this') →
  ∃ new,
    result = prepared ++ new
    ∧ addedPatterns this' = addedPatterns this ++ new
    ∧ length new = length deduped.
Proof.
  revert this prepared. induction deduped as [|pattern rest IH];
    intros this prepared; simpl.
  - intros [= <- <-]. exists []. by rewrite !app_nil_r.
  - destruct (getResolvedPattern (resolver this) pattern) as [pkg|]; [|done].
    set (newPattern := canonicalPattern pkg _).
    destruct (String.eqb newPattern pattern); intros Hrun;
      apply IH in Hrun as (new & -> & Hadded & Hlen); simpl in Hadded;
      exists (newPattern :: new); rewrite <-!app_assoc in *; simpl;
      by rewrite Hlen.
Qed.

(** X9.  A [preparePatterns] that returns gives the patterns it was given
    followed by one canonical pattern per deduped argument; it appends the
    same canonical patterns to [addedPatterns], and changes nothing of the
    instance but that list and the resolver. *)
Theorem preparePatterns_Ok this patterns result this' :
  preparePatterns this patterns = (Ok result, this') →
  (∃ new,
     result = patterns ++ new
     ∧ addedPatterns this' = addedPatterns this ++ new
     ∧ length new = length (dedupePatterns (resolver this) (args this)))
  ∧ flags this' = flags this ∧ config this' = config this
  ∧ reporter this' = reporter this ∧ flagToOrigin this' = flagToOrigin this
  ∧ args this' = args this.
Proof.
  unfold preparePatterns. intros Hrun. split.
  - by apply preparePatterns_loop_Ok in Hrun.
  - apply preparePatterns_loop_frame in Hrun. naive_solver.
Qed.

Lemma preparePatterns_loop_Throw deduped this prepared e this' :
  preparePatterns_loop deduped this prepared = (Throw e, this') →
  ∃ pattern,
    pattern ∈ deduped
    ∧ getResolvedPattern (resolver this') pattern = None
    ∧ e = InvariantViolation ("missing package " +:+ pattern).
Proof.
  revert this prepared. induction deduped as [|pattern rest IH];
    intros this prepared; simpl; [done|].
  destruct (getResolvedPattern (resolver this) pattern) as [pkg|] eqn:Hres.
  - destruct (String.eqb _ pattern); intros Hrun;
      apply IH in Hrun as (p & Hin & Hnone & ->); exists p; set_solver.
  - intros [= <- <-]. exists pattern. set_solver.
Qed.

(** X10.  The only way [preparePatterns] throws is the invariant of line 93:
    a deduped argument for which the resolver, as the loop has left it, has
    no package; the message names that pattern. *)
Theorem preparePatterns_Throw this patterns e this' :
  preparePatterns this patterns = (Throw e, this') →
  ∃ pattern,
    pattern ∈ dedupePatterns (resolver this) (args this)
    ∧ getResolvedPattern (resolver this') pattern = None
    ∧ e = InvariantViolation ("missing package " +:+ pattern).
Proof. apply preparePatterns_loop_Throw. Qed.

Lemma preparePatterns_loop_canonical deduped this prepared :
  Forall (λ pattern,
            ∃ pkg, getResolvedPattern (resolver this) pattern = Some pkg
                   ∧ canonicalPattern pkg (this_getPatternVersion this pattern pkg)
                     = pattern) deduped →
  preparePatterns_loop deduped this prepared
  = (Ok (prepared ++ deduped),
     set_addedPatterns (addedPatterns this ++ deduped) this).
Proof.
  revert this prepared. induction deduped as [|pattern rest IH];
    intros this prepared Hall; simpl.
  - rewrite !app_nil_r. by destruct this.
  - apply Forall_cons in Hall as [(pkg & Hres & Hcanon) Hall].
    rewrite Hres, Hcanon, String.eqb_refl.
    rewrite IH; [|exact Hall]. simpl. by rewrite <-!app_assoc.
Qed.

(** X11.  When every deduped argument is already the canonical pattern of
    its package, [preparePatterns] records the arguments as they are and
    leaves the resolver untouched: [replacePattern] is not called. *)
Theorem preparePatterns_canonical this patterns :
  Forall (λ pattern,
            ∃ pkg, getResolvedPattern (resolver this) pattern = Some pkg
                   ∧ canonicalPattern pkg (this_getPatternVersion this pattern pkg)
                     = pattern)
    (dedupePatterns (resolver this) (args this)) →
  preparePatterns this patterns
  = (Ok (patterns ++ dedupePatterns (resolver this) (args this)),
     set_addedPatterns
       (addedPatterns this ++ dedupePatterns (resolver this) (args this)) this).
Proof. apply preparePatterns_loop_canonical. Qed.
End Rewriter.

Section MergerMore.
Context `{Imports} `{Services} `{!Install}.
Implicit Types (this : Add) (m : Manifests) (rep : list Output).

(** The three ways the loop of [savePackages] throws. *)
Lemma savePackages_loop_Throw this po added m rep e rep' :
  savePackages_loop this po added m rep = (Throw e, rep') →
  (∃ pattern,
     pattern ∈ added
     ∧ getResolvedPattern (resolver this) pattern = None
     ∧ e = InvariantViolation ("missing package " +:+ pattern))
  ∨ (∃ pattern pkg,
       pattern ∈ added
       ∧ getResolvedPattern (resolver this) pattern = Some pkg
       ∧ _reference pkg = None
       ∧ e = InvariantViolation "expected package reference")
  ∨ (∃ pattern pkg ref,
       pattern ∈ added
       ∧ getResolvedPattern (resolver this) pattern = Some pkg
       ∧ _reference pkg = Some ref
       ∧ m !! registry ref = None
       ∧ e = TypeError "manifests[ref.registry] is undefined").
Proof.
  revert m rep. induction added as [|pattern rest IH]; intros m rep; simpl;
    [done|].
  destruct (getResolvedPattern (resolver this) pattern) as [pkg|] eqn:Hres.
  - destruct (_reference pkg) as [ref|] eqn:Href.
    + destruct (m !! registry ref) as [object|] eqn:Hm.
      * intros Hrun. apply IH in Hrun.
        destruct Hrun as [(p & Hin & ?) | [(p & q & Hin & ?) | (p & q & r & Hin & Hp & Hq & Hr & ?)]].
        -- left. exists p. split; [by apply elem_of_cons; right|done].
        -- right; left. exists p, q. split; [by apply elem_of_cons; right|done].
        -- right; right. exists p, q, r.
           split; [by apply elem_of_cons; right|].
           repeat split; try done.
           destruct (decide (registry ref = registry r)) as [Heq|Hne].
           ++ rewrite <-Heq, lookup_insert_eq in Hr. done.
           ++ by rewrite lookup_insert_ne in Hr.
      * intros [= <- <-]. right; right. exists pattern, pkg, ref.
        split; [by apply elem_of_cons; left|done].
    + intros [= <- <-]. right; left. exists pattern, pkg.
      split; [by apply elem_of_cons; left|done].
  - intros [= <- <-]. left. exists pattern.
    split; [by apply elem_of_cons; left|done].
Qed.

(** X12.  The loop of lines 176-202 throws in three ways only: the invariant
    of line 178 for an added pattern without a package, with the message
    [missing package] and the pattern; the invariant of line 181 for a
    package without a reference; a type error at line 194 for a reference
    whose registry has no root manifest. *)
Theorem savePackages_loop_throws this po added m rep e rep' :
  savePackages_loop this po added m rep = (Throw e, rep') →
  (∃ pattern,
     pattern ∈ added
     ∧ getResolvedPattern (resolver this) pattern = None
     ∧ e = InvariantViolation ("missing package " +:+ pattern))
  ∨ (∃ pattern pkg,
       pattern ∈ added
       ∧ getResolvedPattern (resolver this) pattern = Some pkg
       ∧ _reference pkg = None
       ∧ e = InvariantViolation "expected package reference")
  ∨ (∃ pattern pkg ref message,
       pattern ∈ added
       ∧ getResolvedPattern (resolver this) pattern = Some pkg
       ∧ _reference pkg = Some ref
       ∧ m !! registry ref = None
       ∧ e = TypeError message).
Proof.
  intros Hrun. apply savePackages_loop_Throw in Hrun.
  destruct Hrun as [Hmissing | [Hreference | (p & q & r & Hrest)]].
  - by left.
  - by right; left.
  - right; right. exists p, q, r. eexists. exact Hrest.
Qed.

Lemma savePackages_loop_runs this po added m rep :
  Forall (λ pattern,
            ∃ pkg ref, getResolvedPattern (resolver this) pattern = Some pkg
                       ∧ _reference pkg = Some ref
                       ∧ is_Some (m !! registry ref)) added →
  ∃ m' rep', savePackages_loop this po added m rep = (Ok m', rep').
Proof.
  revert m rep. induction added as [|pattern rest IH]; intros m rep Hall; simpl.
  - by eexists _, _.
  - apply Forall_cons in Hall as [(pkg & ref & -> & -> & [object ->]) Hall].
    apply IH. eapply Forall_impl; [exact Hall|]. simpl.
    intros p (pkg' & ref' & Hp & Hr & Hm). exists pkg', ref'.
    repeat split; try done.
    destruct (decide (registry ref = registry ref')) as [<-|Hne].
    + rewrite lookup_insert_eq. eauto.
    + by rewrite lookup_insert_ne.
Qed.

(** X13.  The loop of lines 176-202 runs to its end exactly when every added
    pattern resolves to a package that has a reference whose registry has a
    root manifest among the manifests it was given. *)
Theorem savePackages_loop_returns_iff this po added m rep :
  (∃ m' rep', savePackages_loop this po added m rep = (Ok m', rep'))
  ↔ Forall (λ pattern,
              ∃ pkg ref,
                getResolvedPattern (resolver this) pattern = Some pkg
                ∧ _reference pkg = Some ref
                ∧ is_Some (m !! registry ref))
      added.
Proof.
  split.
  - intros (m' & rep' & Hrun).
    apply savePackages_loop_Ok in Hrun as (plans & Hplans & Hregs & _).
    apply Forall_lookup. intros i pattern Hi.
    destruct (Forall2_lookup_l _ _ _ _ _ Hplans Hi) as ([a outs] & Hj & Hplan).
    apply plan_resolved in Hplan as (pkg & ref & Hres & Href & Hr & _).
    exists pkg, ref. repeat split; try done.
    rewrite <-Hr. rewrite Forall_lookup in Hregs.
    apply (Hregs i a). by rewrite list_lookup_fmap, Hj.
  - apply savePackages_loop_runs.
Qed.

(** X14.  A successful [savePackages] changes no entry of a package name
    that no added pattern resolves to, in any registry and any section, and
    neither adds nor removes a registry. *)
Theorem savePackages_frame this this' pkgName :
  savePackages this = (Ok (), this') →
  Forall (λ pattern,
            name <$> getResolvedPattern (resolver this) pattern ≠ Some pkgName)
    (addedPatterns this) →
  (∀ r origin,
     cell (rootManifests (config this')) r origin pkgName
     = cell (rootManifests (config this)) r origin pkgName)
  ∧ ∀ r, is_Some (rootManifests (config this') !! r)
         ↔ is_Some (rootManifests (config this) !! r).
Proof.
  intros Hsave Hother.
  apply savePackages_Ok in Hsave as (plans & Hplans & _ & -> & _). split.
  - intros r origin. apply cell_assign_all_ne.
    apply Forall_lookup. intros j a Hj.
    rewrite list_lookup_fmap in Hj.
    destruct (plans !! j) as [[a' outs]|] eqn:Hp; [|done].
    injection Hj as <-. simpl.
    destruct (Forall2_lookup_r _ _ _ _ _ Hplans Hp) as (pattern & Hi & Hplan).
    apply plan_resolved in Hplan as (pkg & ref & Hres & _ & _ & Hn & _).
    simpl in Hres. rewrite Forall_lookup in Hother.
    specialize (Hother _ _ Hi). rewrite Hres in Hother. simpl in Hother.
    unfold a_cell. intros [= _ _ Hname]. apply Hother. congruence.
  - intros r. apply assign_all_lookup_is_Some.
Qed.

Lemma assign_all_middle (before after : list Assignment) a m :
  assign_all (before ++ a :: after) m
  = assign_all after (assign a (assign_all before m)).
Proof. unfold assign_all. by rewrite foldl_app. Qed.

(** X15.  The version a successful [savePackages] leaves for an added package
    is the one computed from the last added pattern that resolves to a
    package of that name: when no later added pattern does, the entry under
    the target holds [getPatternVersion] of this pattern. *)
Theorem savePackages_last_version this this' i pattern pkg ref :
  savePackages this = (Ok (), this') →
  addedPatterns this !! i = Some pattern →
  getResolvedPattern (resolver this) pattern = Some pkg →
  _reference pkg = Some ref →
  (∀ j later, i < j → addedPatterns this !! j = Some later →
     name <$> getResolvedPattern (resolver this) later ≠ Some (name pkg)) →
  cell (rootManifests (config this')) (registry ref)
    (targetOf
       (depTypeOf (Install_fetchRequestFromCwd this []).2
          (Install_fetchRequestFromCwd this []).2.*1 (name pkg))
       (flagToOrigin this))
    (name pkg)
  = Some (this_getPatternVersion this pattern pkg).
Proof.
  intros Hsave Hi Hres Href Hlast.
  apply savePackages_Ok in Hsave as (plans & Hplans & Hregs & -> & _).
  destruct (Forall2_lookup_l _ _ _ _ _ Hplans Hi) as ([a outs] & Hj & Hplan).
  pose proof Hplan as Hplan'.
  apply plan_resolved in Hplan as (pkg' & ref' & Hres' & Href' & Hr & Hn & Ht).
  simpl in Hres'. rewrite Hres in Hres'. injection Hres' as <-.
  rewrite Href in Href'. injection Href' as <-.
  assert (a_target a
          = targetOf
              (depTypeOf (Install_fetchRequestFromCwd this []).2
                 (Install_fetchRequestFromCwd this []).2.*1 (name pkg))
              (flagToOrigin this)) as Ht' by exact Ht.
  clear Ht. rename Ht' into Ht.
  assert (a_version a = this_getPatternVersion this pattern pkg) as Hv.
  { unfold plan in Hplan'. simpl in Hplan'. rewrite Hres in Hplan'.
    simpl in Hplan'. rewrite Href in Hplan'. simpl in Hplan'.
    by injection Hplan' as <- _. }
  assert (plans.*1 !! i = Some a) as Hja by (by rewrite list_lookup_fmap, Hj).
  pose proof (take_drop_middle _ _ _ Hja) as Hsplit.
  rewrite <-Hsplit, assign_all_middle.
  rewrite cell_assign_all_ne.
  - rewrite <-Hv, <-Ht, <-Hr, <-Hn. apply cell_assign_eq.
    apply assign_all_lookup_is_Some.
    rewrite Forall_lookup in Hregs. by apply (Hregs i a).
  - apply Forall_lookup. intros k b Hk.
    rewrite lookup_drop in Hk.
    rewrite list_lookup_fmap in Hk.
    destruct (plans !! (S i + k)) as [[b' outs']|] eqn:Hp; [|done].
    injection Hk as <-. simpl.
    destruct (Forall2_lookup_r _ _ _ _ _ Hplans Hp) as (later & Hl & Hplan).
    apply plan_resolved in Hplan as (pkg' & ref' & Hres' & _ & _ & Hn' & _).
    simpl in Hres'.
    assert (i < S i + k) as Hlt by lia.
    specialize (Hlast _ _ Hlt Hl). rewrite Hres' in Hlast. simpl in Hlast.
    unfold a_cell. intros [= _ _ Hname]. apply Hlast. congruence.
Qed.
End MergerMore.

Section MergerOutput.
Context `{Imports} `{Services} `{!Install}.
Implicit Types (this : Add) (m : Manifests) (rep : list Output).

Lemma property_value (origins : PatternOrigins) key origin :
  property origins key = Some origin → origin ∈ origins.*2.
Proof.
  induction origins as [|[k v] origins IH]; simpl; [done|].
  destruct (String.eqb k key).
  - intros [= ->]. apply elem_of_cons. by left.
  - intros Hp. apply elem_of_cons. right. by apply IH.
Qed.

Lemma depTypeOf_value origins keys pkgName origin :
  depTypeOf origins keys pkgName = Some origin → origin ∈ origins.*2.
Proof.
  induction keys as [|key keys IH] using rev_ind; [done|].
  rewrite depTypeOf_snoc. destruct (String.prefix _ key); [|done].
  apply property_value.
Qed.

Lemma targetOf_value origins keys pkgName flag :
  targetOf (depTypeOf origins keys pkgName) flag = flag
  ∨ targetOf (depTypeOf origins keys pkgName) flag ∈ origins.*2.
Proof.
  destruct (depTypeOf origins keys pkgName) as [origin|] eqn:Hdep; simpl;
    [|by left].
  unfold str_or. destruct (truthy origin); [|by left].
  right. by apply depTypeOf_value in Hdep.
Qed.

(** X16.  A successful [savePackages] writes only to the section of the
    requested origin and to sections that the index names as an origin:
    every entry of any other section is as it was. *)
Theorem savePackages_sections this this' r origin pkgName :
  savePackages this = (Ok (), this') →
  origin ≠ flagToOrigin this →
  origin ∉ (Install_fetchRequestFromCwd this []).2.*2 →
  cell (rootManifests (config this')) r origin pkgName
  = cell (rootManifests (config this)) r origin pkgName.
Proof.
  intros Hsave Hflag Hindex.
  apply savePackages_Ok in Hsave as (plans & Hplans & _ & -> & _).
  apply cell_assign_all_ne. apply Forall_lookup. intros j a Hj.
  rewrite list_lookup_fmap in Hj.
  destruct (plans !! j) as [[a' outs]|] eqn:Hp; [|done].
  injection Hj as <-. simpl.
  destruct (Forall2_lookup_r _ _ _ _ _ Hplans Hp) as (pattern & _ & Hplan).
  apply plan_resolved in Hplan as (pkg & ref & _ & _ & _ & _ & Ht).
  unfold a_cell. intros [= _ Htarget _]. rewrite Ht in Htarget.
  destruct (targetOf_value (Install_fetchRequestFromCwd this []).2
              (Install_fetchRequestFromCwd this []).2.*1 (name pkg)
              (flagToOrigin this)) as [Heq|Hin].
  - apply Hflag. rewrite <-Htarget. exact Heq.
  - apply Hindex. rewrite <-Htarget. exact Hin.
Qed.

Lemma savePackages_loop_reporter this po added m rep result rep' :
  savePackages_loop this po added m rep = (result, rep') →
  ∃ outs,
    rep' = rep ++ outs
    ∧ Forall (λ o, ∃ pkgName depType,
                o = OutWarn (Lang "moduleAlreadyInManifest"
                      [ArgString pkgName; depType; ArgString (flagToOrigin this)]))
        outs
    ∧ length outs ≤ length added.
Proof.
  revert m rep. induction added as [|pattern rest IH]; intros m rep; simpl.
  - intros [= _ <-]. exists []. rewrite app_nil_r.
    split; [done|]. split; [by apply Forall_nil|simpl; lia].
  - assert (∃ outs : list Output, rep = rep ++ outs
              ∧ Forall (λ o, ∃ pkgName depType,
                          o = OutWarn (Lang "moduleAlreadyInManifest"
                                [ArgString pkgName; depType;
                                 ArgString (flagToOrigin this)])) outs
              ∧ length outs ≤ S (length rest)) as Hstop.
    { exists []. rewrite app_nil_r.
      split; [done|]. split; [by apply Forall_nil|simpl; lia]. }
    destruct (getResolvedPattern (resolver this) pattern) as [pkg|];
      [|intros [= _ <-]; exact Hstop].
    destruct (_reference pkg) as [ref|]; [|intros [= _ <-]; exact Hstop].
    destruct (m !! registry ref) as [object|];
      [|intros [= _ <-]; exact Hstop].
    clear Hstop.
    destruct (String.eqb _ (flagToOrigin this)); intros Hrun;
      apply IH in Hrun as (outs & -> & Hall & Hlen).
    + exists outs. split; [done|]. split; [done|lia].
    + eexists (_ :: outs). rewrite <-app_assoc. simpl.
      split; [done|]. split; [|lia].
      apply Forall_cons. split; [by eexists _, _|done].
Qed.

(** X17.  Whether it returns or throws, [savePackages] only prints conflict
    warnings, after what the reporter already held and at most one per added
    pattern, and it leaves the added patterns, the resolver, the flags and
    the requested origin of the instance as they were. *)
Theorem savePackages_output this :
  (∃ outs,
     reporter (savePackages this).2 = reporter this ++ outs
     ∧ Forall (λ o, ∃ pkgName depType,
                 o = OutWarn (Lang "moduleAlreadyInManifest"
                       [ArgString pkgName; depType; ArgString (flagToOrigin this)]))
         outs
     ∧ length outs ≤ length (addedPatterns this))
  ∧ addedPatterns (savePackages this).2 = addedPatterns this
  ∧ resolver (savePackages this).2 = resolver this
  ∧ flags (savePackages this).2 = flags this
  ∧ flagToOrigin (savePackages this).2 = flagToOrigin this.
Proof.
  unfold savePackages. simpl.
  destruct (savePackages_loop _ _ _ _ _) as [result reporter'] eqn:Hloop.
  apply savePackages_loop_reporter in Hloop. simpl in Hloop.
  by destruct result.
Qed.
End MergerOutput.

Section GateMore.
Context `{Imports} `{Services} `{!Install}.
Implicit Types (this : Add).

(** X18.  [bailout] changes nothing of the instance but the force flag of
    the scripts, which it sets and never clears; calling it again on the
    instance it left gives the same instance. *)
Theorem bailout_only_forces this patterns workspaceLayout :
  ((bailout this patterns workspaceLayout).2 = this
   ∨ (bailout this patterns workspaceLayout).2 = setForce true this)
  ∧ (scriptsForce this = true →
     (bailout this patterns workspaceLayout).2 = this)
  ∧ bailout (bailout this patterns workspaceLayout).2 patterns workspaceLayout
    = bailout this patterns workspaceLayout.
Proof.
  unfold bailout.
  destruct (cache (lockfile this)) as [lockfileCache|] eqn:Hcache.
  - destruct (integrityFileMissing _ && fs_exists _) eqn:Hforce; simpl;
      rewrite Hcache, Hforce.
    + split; [by right|]. split; [|done].
      intros Hset. destruct this; simpl in *. by rewrite Hset.
    + split; [by left|]. by split.
  - simpl. rewrite Hcache. split; [by left|]. by split.
Qed.

(** X19.  An [init] that returns has passed the workspace root check and
    returns the patterns of [Install.prototype.init]; what it has printed after
    the superclass is the success message, singular for a count of one, then
    the tree of new dependencies, then the conflict warnings of the merge. *)
Theorem init_Ok this patterns this' :
  init this = (Ok patterns, this') →
  isWorkspaceRoot (config this) && negb (ignoreWorkspaceRootCheck (flags this))
    = false
  ∧ ∃ this1 outs,
      Install_init (set_addedPatterns [] this) = (Ok patterns, this1)
      ∧ reporter this'
        = reporter this1
          ++ [OutSuccess
                (if Nat.eqb (buildTree (resolver this1) patterns).2 1
                 then Lang "savedNewDependency" []
                 else Lang "savedNewDependencies"
                        [ArgNumber (buildTree (resolver this1) patterns).2]);
              OutTree "newDependencies" (buildTree (resolver this1) patterns).1]
          ++ outs
      ∧ Forall (λ o, is_Some (warnedName o)) outs.
Proof.
  unfold init.
  destruct (isWorkspaceRoot _ && negb _); [done|].
  destruct (Install_init (set_addedPatterns [] this)) as [[patterns'|e] this1]
    eqn:Hinit; [|done].
  destruct (savePackages (maybeOutputSaveTree this1 patterns'))
    as [[[]|e] this2] eqn:Hsave; [|done].
  intros [= <- <-]. split; [done|].
  destruct (savePackages_output (maybeOutputSaveTree this1 patterns'))
    as ((outs & Hrep & Hall & _) & _).
  rewrite Hsave in Hrep. simpl in Hrep.
  exists this1, outs. split; [done|]. split.
  - rewrite Hrep. unfold maybeOutputSaveTree.
    destruct (buildTree (resolver this1) patterns') as [trees count]. simpl.
    by rewrite <-app_assoc.
  - eapply Forall_impl; [exact Hall|]. intros o (n & d & ->). simpl. eauto.
Qed.

(** X20.  The success message comes before the merge: when the superclass
    has returned and [savePackages] then throws, [init] throws the same
    error with the success message already printed. *)
Theorem init_save_failure this patterns this1 e this2 :
  isWorkspaceRoot (config this) && negb (ignoreWorkspaceRootCheck (flags this))
    = false →
  Install_init (set_addedPatterns [] this) = (Ok patterns, this1) →
  savePackages (maybeOutputSaveTree this1 patterns) = (Throw e, this2) →
  init this = (Throw e, this2)
  ∧ ∃ message, OutSuccess message ∈ reporter this2.
Proof.
  intros Hroot Hinit Hsave. unfold init. rewrite Hroot, Hinit, Hsave.
  split; [done|].
  destruct (savePackages_output (maybeOutputSaveTree this1 patterns))
    as ((outs & Hrep & _) & _).
  rewrite Hsave in Hrep. simpl in Hrep.
  rewrite Hrep. unfold maybeOutputSaveTree.
  destruct (buildTree (resolver this1) patterns) as [trees count]. simpl.
  eexists. rewrite !elem_of_app, elem_of_cons. left. right. by left.
Qed.

(** X21.  With arguments, an error of [Lockfile.fromDirectory] is the error
    of [run]: the lifecycle wrapper is not entered and the configuration,
    with its manifests, is as it was. *)
Theorem run_lockfile_error cfg rep flags args e rep' :
  args ≠ [] →
  Lockfile_fromDirectory (lockfileFolder cfg) rep = (Throw e, rep') →
  run cfg rep flags args = (Throw e, (cfg, rep')).
Proof.
  intros Hargs Hlock. unfold run. destruct args; [done|]. simpl.
  by rewrite Hlock.
Qed.
End GateMore.

(** ** The further properties on concrete invocations *)

Lemma getPatternVersion_configured_prefix_witness :
  @getPatternVersion Sample.imports Demo.no_flags
    (Demo.with_prefix ">=")
    "lodash" Demo.lodash
  = ">=4.17.21".
Proof.
  apply (@getPatternVersion_configured_prefix Sample.imports Demo.no_flags
           (Demo.with_prefix ">=")
           "lodash" Demo.lodash); reflexivity.
Defined.

Lemma getPatternVersion_tilde_overrides_witness :
  @getPatternVersion Sample.imports Demo.tilde_exact (Demo.project None ∅)
    "lodash" Demo.lodash
  = @getPatternVersion Sample.imports (mkFlags false false false false true false)
      (Demo.with_prefix ">=")
      "lodash" Demo.lodash.
Proof.
  apply (@getPatternVersion_tilde_overrides Sample.imports); reflexivity.
Defined.

Lemma getPatternVersion_not_empty_witness :
  @getPatternVersion Sample.imports Demo.no_flags (Demo.project None ∅)
    "lodash" Demo.lodash ≠ "".
Proof.
  apply (@getPatternVersion_not_empty Sample.imports); vm_compute; discriminate.
Defined.

Lemma depTypeOf_last_witness :
  depTypeOf
    [("lodash@^3.0.0", "dependencies"); ("lodash@^2.0.0", "devDependencies")]
    ["lodash@^3.0.0"; "lodash@^2.0.0"] "lodash"
  = Some "devDependencies".
Proof.
  apply (depTypeOf_last
           [("lodash@^3.0.0", "dependencies"); ("lodash@^2.0.0", "devDependencies")]
           "lodash").
  refine (bool_decide_unpack _ _). vm_compute. exact I.
Defined.

Lemma preparePatterns_Ok_witness :
  addedPatterns
    (@preparePatterns Sample.imports _
       (Demo.constructed ["lodash"] Demo.no_flags Demo.dev_manifests) ["react@^18.0.0"]).2
  = [] ++ ["lodash@^4.17.21"].
Proof.
  destruct (@preparePatterns_Ok Sample.imports _
              (Demo.constructed ["lodash"] Demo.no_flags Demo.dev_manifests)
              ["react@^18.0.0"] ["react@^18.0.0"; "lodash@^4.17.21"]
              (@preparePatterns Sample.imports _
                 (Demo.constructed ["lodash"] Demo.no_flags Demo.dev_manifests)
                 ["react@^18.0.0"]).2)
    as ((new & Hresult & Hadded & _) & _); [reflexivity|].
  simpl in Hresult. injection Hresult as <-. exact Hadded.
Defined.

Lemma preparePatterns_Throw_witness :
  ∃ pattern,
    pattern ∈ ["left-pad"]
    ∧ (@preparePatterns Sample.imports _
         (Demo.constructed ["left-pad"] Demo.no_flags Demo.dev_manifests) []).1
      = Throw (InvariantViolation ("missing package " +:+ pattern)).
Proof.
  destruct (@preparePatterns_Throw Sample.imports _
              (Demo.constructed ["left-pad"] Demo.no_flags Demo.dev_manifests) []
              (InvariantViolation "missing package left-pad")
              (Demo.constructed ["left-pad"] Demo.no_flags Demo.dev_manifests))
    as (pattern & Hin & _ & Herror); [reflexivity|].
  exists pattern. split; [exact Hin|]. by rewrite <-Herror.
Defined.

Lemma preparePatterns_canonical_witness :
  @preparePatterns Sample.imports (Sample.services [("lodash@^4.17.21", Demo.lodash)])
    (@new_Add (Sample.services [("lodash@^4.17.21", Demo.lodash)])
       ["lodash@^4.17.21"] Demo.no_flags (Demo.project None Demo.dev_manifests) []
       (mkLockfile None)) []
  = (Ok ["lodash@^4.17.21"],
     set_addedPatterns ["lodash@^4.17.21"]
       (@new_Add (Sample.services [("lodash@^4.17.21", Demo.lodash)])
          ["lodash@^4.17.21"] Demo.no_flags (Demo.project None Demo.dev_manifests) []
          (mkLockfile None))).
Proof.
  apply (@preparePatterns_canonical Sample.imports
           (Sample.services [("lodash@^4.17.21", Demo.lodash)])).
  apply Forall_cons. split; [|by apply Forall_nil].
  exists Demo.lodash. split; reflexivity.
Defined.

Lemma assignVersion_lookup_witness :
  assignVersion {[ "devDependencies" := {[ "react" := "^18.0.0" ]} ]}
    "dependencies" "lodash" "^4.17.21" !! "dependencies" ≫= (.!! "lodash")
  = Some "^4.17.21"
  ∧ assignVersion {[ "devDependencies" := {[ "react" := "^18.0.0" ]} ]}
      "dependencies" "lodash" "^4.17.21" !! "devDependencies" ≫= (.!! "react")
    = Some "^18.0.0".
Proof.
  split.
  - etrans; [apply assignVersion_lookup; discriminate|]. reflexivity.
  - etrans; [apply assignVersion_lookup; discriminate|]. reflexivity.
Defined.

Lemma savePackages_loop_throws_witness :
  ∃ message,
    (@savePackages_loop Sample.imports _ (Demo.prepared Demo.no_flags ∅) []
       ["lodash@^4.17.21"] ∅ []).1
    = Throw (TypeError message).
Proof.
  destruct (@savePackages_loop_throws Sample.imports _
              (Demo.prepared Demo.no_flags ∅) [] ["lodash@^4.17.21"] ∅ []
              (TypeError "manifests[ref.registry] is undefined") [])
    as [(p & _ & _ & He) | [(p & q & _ & _ & _ & He) | (p & q & r & message & _ & _ & _ & _ & He)]];
    [reflexivity|..].
  - discriminate.
  - discriminate.
  - exists message. by rewrite <-He.
Defined.

Lemma savePackages_frame_witness :
  cell (rootManifests (config
          (@savePackages Sample.imports _ (Sample.install Demo.resolved)
             (Demo.prepared Demo.dev_flag Demo.two_sections)).2))
    "npm" "dependencies" "react"
  = None.
Proof.
  destruct (@savePackages_frame Sample.imports _ (Sample.install Demo.resolved)
              (Demo.prepared Demo.dev_flag Demo.two_sections)
              (@savePackages Sample.imports _ (Sample.install Demo.resolved)
                 (Demo.prepared Demo.dev_flag Demo.two_sections)).2
              "react")
    as [Hcell _]; [reflexivity| |].
  - apply Forall_cons. split; [vm_compute; discriminate|by apply Forall_nil].
  - etrans; [apply (Hcell "npm" "dependencies")|reflexivity].
Defined.

Lemma savePackages_last_version_witness :
  cell (rootManifests (config
          (@savePackages Sample.imports _ (Sample.install Demo.resolved)
             (Demo.prepared Demo.no_flags Demo.dev_manifests)).2))
    "npm" "devDependencies" "lodash"
  = Some "^4.17.21".
Proof.
  apply (@savePackages_last_version Sample.imports _ (Sample.install Demo.resolved)
           (Demo.prepared Demo.no_flags Demo.dev_manifests)
           (@savePackages Sample.imports _ (Sample.install Demo.resolved)
              (Demo.prepared Demo.no_flags Demo.dev_manifests)).2
           0 "lodash@^4.17.21" Demo.lodash Demo.npm); try reflexivity.
  intros [|j] later Hlt Hlater; [lia|]. vm_compute in Hlater. discriminate.
Defined.

Lemma savePackages_sections_witness :
  cell (rootManifests (config
          (@savePackages Sample.imports _ (Sample.install Demo.resolved)
             (Demo.prepared Demo.no_flags Demo.dev_manifests)).2))
    "npm" "peerDependencies" "lodash"
  = None.
Proof.
  etrans; [|reflexivity].
  apply (@savePackages_sections Sample.imports _ (Sample.install Demo.resolved)
           (Demo.prepared Demo.no_flags Demo.dev_manifests)
           (@savePackages Sample.imports _ (Sample.install Demo.resolved)
              (Demo.prepared Demo.no_flags Demo.dev_manifests)).2
           "npm" "peerDependencies" "lodash").
  - reflexivity.
  - vm_compute. discriminate.
  - refine (bool_decide_unpack _ _). vm_compute. exact I.
Defined.

Lemma init_Ok_witness :
  isWorkspaceRoot (Demo.project None Demo.dev_manifests)
    && negb (ignoreWorkspaceRootCheck Demo.no_flags) = false.
Proof.
  destruct (@init_Ok Sample.imports _ (Sample.install Demo.resolved)
              (Demo.constructed ["lodash"] Demo.no_flags Demo.dev_manifests)
              ["lodash@^4.17.21"]
              (@init Sample.imports _ (Sample.install Demo.resolved)
                 (Demo.constructed ["lodash"] Demo.no_flags Demo.dev_manifests)).2)
    as [Hroot _]; [vm_compute; reflexivity|exact Hroot].
Defined.

Lemma init_save_failure_witness :
  (@init Sample.imports _ (Sample.install Demo.resolved)
     (Demo.constructed ["lodash"] Demo.no_flags ∅)).1
  = Throw (TypeError "manifests[ref.registry] is undefined")
  ∧ ∃ message,
      OutSuccess message
      ∈ reporter (@init Sample.imports _ (Sample.install Demo.resolved)
                    (Demo.constructed ["lodash"] Demo.no_flags ∅)).2.
Proof.
  destruct (@init_save_failure Sample.imports _ (Sample.install Demo.resolved)
              (Demo.constructed ["lodash"] Demo.no_flags ∅)
              ["lodash@^4.17.21"]
              (Demo.prepared Demo.no_flags ∅)
              (TypeError "manifests[ref.registry] is undefined")
              (@init Sample.imports _ (Sample.install Demo.resolved)
                 (Demo.constructed ["lodash"] Demo.no_flags ∅)).2)
    as (Hinit & Hmessage); try reflexivity.
  split; [by rewrite Hinit|exact Hmessage].
Defined.

Lemma run_lockfile_error_witness :
  @run Sample.imports _ Demo.unreadable_lockfile
    (Demo.project None Demo.dev_manifests) [] Demo.no_flags ["lodash"]
  = (Throw (MessageError (Lang "lockfileUnreadable" [])),
     (Demo.project None Demo.dev_manifests, [])).
Proof.
  apply (@run_lockfile_error Sample.imports _ Demo.unreadable_lockfile);
    [discriminate|reflexivity].
Defined.

(** ** The conflict rule and the selected origin *)

Section ConflictRule.
Context `{Imports} `{Services} `{!Install}.
Implicit Types (this : Add).

(** On an index with distinct keys, lines 183-191 compute the effective
    origin. *)
Lemma targetOf_effectiveOrigin (origins : PatternOrigins) pkgName requested :
  NoDup origins.*1 →
  targetOf (depTypeOf origins origins.*1 pkgName) requested
  = effectiveOrigin origins pkgName requested.
Proof.
  intros Hnodup. unfold effectiveOrigin, lastOrigin.
  rewrite (depTypeOf_last_entries origins origins pkgName Hnodup) by done.
  destruct (snd <$> last _) as [existing|]; simpl; [|done].
  unfold str_or, truthy. by destruct (String.eqb existing "").
Qed.

(** The version a successful merge leaves under the target of an added
    pattern that is the last one of its package name. *)
Lemma savePackages_recorded this this' i pattern pkg ref :
  savePackages this = (Ok (), this') →
  addedPatterns this !! i = Some pattern →
  getResolvedPattern (resolver this) pattern = Some pkg →
  _reference pkg = Some ref →
  (∀ j later, i < j → addedPatterns this !! j = Some later →
     name <$> getResolvedPattern (resolver this) later ≠ Some (name pkg)) →
  cell (rootManifests (config this')) (registry ref)
    (targetOf
       (depTypeOf (Install_fetchRequestFromCwd this []).2
          (Install_fetchRequestFromCwd this []).2.*1 (name pkg))
       (flagToOrigin this))
    (name pkg)
  = Some (this_getPatternVersion this pattern pkg).
Proof.
  intros Hsave Hi Hres Href Hlast.
  apply savePackages_Ok in Hsave as (plans & Hplans & Hregs & -> & _).
  destruct (Forall2_lookup_l _ _ _ _ _ Hplans Hi) as ([a outs] & Hj & Hplan).
  assert (plan (set_rootPatternsToOrigin (Install_fetchRequestFromCwd this []).2 this)
            (Install_fetchRequestFromCwd this []).2.*1 pattern
          = Some (mkAssignment (registry ref)
                    (targetOf
                       (depTypeOf (Install_fetchRequestFromCwd this []).2
                          (Install_fetchRequestFromCwd this []).2.*1 (name pkg))
                       (flagToOrigin this))
                    (name pkg) (this_getPatternVersion this pattern pkg),
                  outs)) as Hshape.
  { rewrite Hplan. unfold plan in Hplan. simpl in Hplan.
    rewrite Hres in Hplan. simpl in Hplan. rewrite Href in Hplan.
    simpl in Hplan. by injection Hplan as <- <-. }
  rewrite Hplan in Hshape. injection Hshape as ->.
  assert (plans.*1 !! i = Some
            (mkAssignment (registry ref)
               (targetOf
                  (depTypeOf (Install_fetchRequestFromCwd this []).2
                     (Install_fetchRequestFromCwd this []).2.*1 (name pkg))
                  (flagToOrigin this))
               (name pkg) (this_getPatternVersion this pattern pkg))) as Hja
    by (by rewrite list_lookup_fmap, Hj).
  rewrite <-(take_drop_middle _ _ _ Hja), assign_all_middle.
  rewrite cell_assign_all_ne.
  - apply (cell_assign_eq (mkAssignment _ _ _ _)). simpl.
    apply assign_all_lookup_is_Some.
    rewrite Forall_lookup in Hregs. by apply (Hregs i _ Hja).
  - apply Forall_lookup. intros k b Hk.
    rewrite lookup_drop, list_lookup_fmap in Hk.
    destruct (plans !! (S i + k)) as [[b' outs']|] eqn:Hp; [|done].
    injection Hk as <-. simpl.
    destruct (Forall2_lookup_r _ _ _ _ _ Hplans Hp) as (later & Hl & Hlater).
    apply plan_resolved in Hlater as (pkg' & ref' & Hres' & _ & _ & Hn' & _).
    simpl in Hres'.
    assert (i < S i + k) as Hlt by lia.
    specialize (Hlast _ _ Hlt Hl). rewrite Hres' in Hlast. simpl in Hlast.
    unfold a_cell. simpl. intros [= _ _ Hname]. apply Hlast. congruence.
Qed.

(** C1, amended.  On an index with distinct keys, a successful merge records
    each added package under its effective origin: the origin of the last
    index key, in key order, that starts with [name@] (the existing
    classification, when there is a single one), or the requested origin
    when no key does.  The entry holds the version of the last added pattern
    of that package name.  No other section changes for the name, so nothing
    is added under the requested origin when the effective origin differs,
    and the name sits in one section only if it sat in no other before.
    When the effective origin is not the requested one, one warning naming
    the package, the effective origin and the requested origin is printed
    per added pattern that resolves to the package; otherwise none. *)
Theorem savePackages_existing_origin_wins this this' i pattern pkg ref :
  savePackages this = (Ok (), this') →
  addedPatterns this !! i = Some pattern →
  getResolvedPattern (resolver this) pattern = Some pkg →
  _reference pkg = Some ref →
  NoDup (Install_fetchRequestFromCwd this []).2.*1 →
  let target :=
    effectiveOrigin (Install_fetchRequestFromCwd this []).2 (name pkg)
      (flagToOrigin this) in
  let before := rootManifests (config this) in
  let after := rootManifests (config this') in
  is_Some (cell after (registry ref) target (name pkg))
  ∧ ((∀ j later, i < j → addedPatterns this !! j = Some later →
        name <$> getResolvedPattern (resolver this) later ≠ Some (name pkg)) →
     cell after (registry ref) target (name pkg)
     = Some (this_getPatternVersion this pattern pkg))
  ∧ (∀ r origin, origin ≠ target →
       cell after r origin (name pkg) = cell before r origin (name pkg))
  ∧ ((∀ origin, origin ≠ target →
        cell before (registry ref) origin (name pkg) = None) →
     ∀ origin, is_Some (cell after (registry ref) origin (name pkg))
               ↔ origin = target)
  ∧ ∃ outs,
      reporter this' = reporter this ++ outs
      ∧ filter (λ o, warnedName o = Some (name pkg)) outs =
        if decide (target = flagToOrigin this) then []
        else replicate
               (length (filter
                  (λ p, name <$> getResolvedPattern (resolver this) p
                        = Some (name pkg))
                  (addedPatterns this)))
               (OutWarn (Lang "moduleAlreadyInManifest"
                  [ArgString (name pkg); ArgString target;
                   ArgString (flagToOrigin this)])).
Proof.
  intros Hsave Hi Hres Href Hnodup target before after.
  destruct (savePackages_effect _ _ _ _ _ _ Hsave Hi Hres Href) as [Hin Hout].
  pose proof (λ Hlast, savePackages_recorded _ _ _ _ _ _ Hsave Hi Hres Href Hlast)
    as Hvalue.
  simpl in Hin, Hout.
  rewrite (targetOf_effectiveOrigin _ (name pkg) (flagToOrigin this) Hnodup)
    in Hin, Hout, Hvalue.
  fold target before after in Hin, Hout, Hvalue.
  split; [done|]. split; [done|]. split; [done|]. split.
  - intros Hfresh origin. split.
    + intros Hsome. destruct (decide (origin = target)) as [|Hne]; [done|].
      rewrite Hout, Hfresh in Hsome by done. by destruct Hsome.
    + by intros ->.
  - apply savePackages_Ok in Hsave as (plans & Hplans & _ & _ & Hrep).
    exists (concat plans.*2). split; [done|].
    rewrite (plans_warnings _ _ _ _ (name pkg) Hplans). simpl.
    by rewrite (targetOf_effectiveOrigin _ (name pkg) (flagToOrigin this) Hnodup).
Qed.

(** C9.  With at most one of the three flags set, the constructor selects
    the origin of that flag, dependencies when none is set.  The selection
    is the requested origin of the whole invocation: when [init] returns,
    the superclass having left the field as constructed, every added package
    that the index does not classify is recorded under the selection, and
    every conflict warning names the selection as the requested origin. *)
Theorem flagToOrigin_selected args flags cfg rep lockfile :
  Nat.b2n (dev flags) + Nat.b2n (optional flags) + Nat.b2n (peer flags) ≤ 1 →
  let selected := flagToOrigin (new_Add args flags cfg rep lockfile) in
  (dev flags = true → selected = "devDependencies")
  ∧ (optional flags = true → selected = "optionalDependencies")
  ∧ (peer flags = true → selected = "peerDependencies")
  ∧ (dev flags = false → optional flags = false → peer flags = false →
     selected = "dependencies")
  ∧ ∀ patterns this1 this',
      Install_init (set_addedPatterns [] (new_Add args flags cfg rep lockfile))
        = (Ok patterns, this1) →
      flagToOrigin this1 = selected →
      init (new_Add args flags cfg rep lockfile) = (Ok patterns, this') →
      (∀ i pattern pkg ref,
         addedPatterns this1 !! i = Some pattern →
         getResolvedPattern (resolver this1) pattern = Some pkg →
         _reference pkg = Some ref →
         Forall (λ key, String.prefix (name pkg +:+ "@") key = false)
           (Install_fetchRequestFromCwd (maybeOutputSaveTree this1 patterns) []).2.*1 →
         is_Some (cell (rootManifests (config this')) (registry ref) selected
                    (name pkg)))
      ∧ ∃ outs,
          reporter this' = reporter (maybeOutputSaveTree this1 patterns) ++ outs
          ∧ Forall (λ o, ∃ pkgName depType,
                      o = OutWarn (Lang "moduleAlreadyInManifest"
                            [ArgString pkgName; depType; ArgString selected]))
              outs.
Proof.
  intros Hone selected.
  assert (selected = flagToOrigin_of flags) as Hselected by done.
  split; [|split; [|split; [|split]]].
  - intros Hd. rewrite Hselected. unfold flagToOrigin_of. by rewrite Hd.
  - intros Ho. rewrite Hselected. unfold flagToOrigin_of. rewrite Ho in *.
    destruct (dev flags); simpl in *; [lia|done].
  - intros Hp. rewrite Hselected. unfold flagToOrigin_of. rewrite Hp in *.
    destruct (dev flags), (optional flags); simpl in *; try lia. done.
  - intros Hd Ho Hp. rewrite Hselected. unfold flagToOrigin_of.
    by rewrite Hd, Ho, Hp.
  - intros patterns this1 this' Hinit Hkept Hrun.
    unfold init in Hrun.
    destruct (isWorkspaceRoot _ && negb _); [done|].
    rewrite Hinit in Hrun.
    destruct (savePackages (maybeOutputSaveTree this1 patterns))
      as [[[]|e] this2] eqn:Hsave; [|done].
    injection Hrun as <-.
    assert (flagToOrigin (maybeOutputSaveTree this1 patterns) = selected
            ∧ addedPatterns (maybeOutputSaveTree this1 patterns)
              = addedPatterns this1
            ∧ resolver (maybeOutputSaveTree this1 patterns) = resolver this1)
      as (Hflag & Hadded & Hresolver).
    { unfold maybeOutputSaveTree.
      by destruct (buildTree (resolver this1) patterns). }
    split.
    + intros i pattern pkg ref Hi Hres Href Hnone.
      rewrite <-Hadded in Hi. rewrite <-Hresolver in Hres.
      destruct (savePackages_effect _ _ _ _ _ _ Hsave Hi Hres Href) as [Hin _].
      simpl in Hin.
      assert (depTypeOf
                (Install_fetchRequestFromCwd (maybeOutputSaveTree this1 patterns) []).2
                (Install_fetchRequestFromCwd (maybeOutputSaveTree this1 patterns) []).2.*1
                (name pkg) = None) as Hdep
        by (by apply depTypeOf_None_keys).
      rewrite Hdep, Hflag in Hin. exact Hin.
    + unfold savePackages in Hsave. simpl in Hsave.
      destruct (savePackages_loop _ _ _ _ _) as [[manifests|e] reporter']
        eqn:Hloop; [|done].
      injection Hsave as <-. simpl.
      apply savePackages_loop_reporter in Hloop as (outs & -> & Hall & _).
      simpl in Hall. rewrite Hflag in Hall. by exists outs.
Qed.
End ConflictRule.

Lemma savePackages_existing_origin_wins_witness :
  let install := Demo.handed [("lodash@^3.0.0", "devDependencies")] in
  let this := Demo.prepared Demo.no_flags Demo.dev_manifests in
  let this' := (@savePackages Sample.imports _ install this).2 in
  cell (rootManifests (config this)) "npm" "devDependencies" "lodash"
    = Some "^3.0.0"
  ∧ cell (rootManifests (config this')) "npm" "devDependencies" "lodash"
    = Some "^4.17.21"
  ∧ cell (rootManifests (config this')) "npm" "dependencies" "lodash" = None
  ∧ reporter this'
    = [OutWarn (Lang "moduleAlreadyInManifest"
         [ArgString "lodash"; ArgString "devDependencies";
          ArgString "dependencies"])].
Proof.
  intros install this this'.
  destruct (@savePackages_existing_origin_wins Sample.imports _ install
              this this' 0 "lodash@^4.17.21" Demo.lodash Demo.npm)
    as (_ & Hvalue & Hother & _ & outs & Hrep & Hwarn);
    try (vm_compute; reflexivity).
  { refine (bool_decide_unpack _ _). vm_compute. exact I. }
  split; [reflexivity|]. split; [|split].
  - etrans; [apply Hvalue|reflexivity].
    intros [|j] later Hlt Hlater; [lia|]. vm_compute in Hlater. discriminate.
  - etrans; [apply (Hother "npm" "dependencies"); vm_compute; discriminate|].
    reflexivity.
  - vm_compute. reflexivity.
Defined.

(** C1 as stated fails on the warning: [yarn add lodash@^3.0.0
    lodash@^4.0.0] adds two packages named lodash while lodash is a
    devDependency.  Both assignments go to devDependencies, and the conflict
    warning for lodash is printed twice, not once. *)
Lemma existing_origin_does_not_always_win :
  ¬ @existingOriginWins Sample.imports _
      (Demo.handed [("lodash@^2.0.0", "devDependencies")]) Demo.two_versions.
Proof.
  intros Hclaim.
  destruct (Hclaim
              (@savePackages Sample.imports _
                 (Demo.handed [("lodash@^2.0.0", "devDependencies")])
                 Demo.two_versions).2
              0 "lodash@^3.0.0" Demo.lodash3 Demo.npm
              "lodash@^2.0.0" "devDependencies")
    as (_ & _ & outs & Hrep & Hwarn); try (vm_compute; reflexivity).
  - vm_compute. left.
  - discriminate.
  - vm_compute in Hrep. subst outs. vm_compute in Hwarn. discriminate.
Qed.

Lemma flagToOrigin_selected_witness :
  let this0 := Demo.constructed ["lodash"] Demo.dev_flag Demo.no_dependencies in
  let this' := (@init Sample.imports _ (Demo.handed []) this0).2 in
  flagToOrigin this0 = "devDependencies"
  ∧ cell (rootManifests (config this0)) "npm" "devDependencies" "lodash" = None
  ∧ is_Some (cell (rootManifests (config this')) "npm" "devDependencies" "lodash").
Proof.
  intros this0 this'.
  destruct (@flagToOrigin_selected Sample.imports (Sample.services Demo.resolved)
              (Demo.handed []) ["lodash"] Demo.dev_flag
              (Demo.project None Demo.no_dependencies) [] (mkLockfile None))
    as (Hdev & _ & _ & _ & Hused).
  - vm_compute. lia.
  - split; [apply Hdev; reflexivity|]. split; [reflexivity|].
    destruct (Hused ["lodash@^4.17.21"]
                (Demo.prepared Demo.dev_flag Demo.no_dependencies) this')
      as [Hrecorded _]; try (vm_compute; reflexivity).
    apply (Hrecorded 0 "lodash@^4.17.21" Demo.lodash Demo.npm);
      try (vm_compute; reflexivity).
    apply Forall_nil. exact I.
Defined.

Lemma bailout_returns_false_witness :
  scriptsForce Demo.with_cache = false
  ∧ scriptsForce
      (@bailout (Sample.services Demo.resolved) Demo.with_cache ["lodash"] None).2
    = true.
Proof.
  split; [reflexivity|].
  destruct (@bailout_returns_false (Sample.services Demo.resolved)
              Demo.with_cache ["lodash"] None)
    as (_ & _ & _ & Hforce & _).
  apply (Hforce ()); reflexivity.
Defined.
